(** * Multi-criteria answer judging: a shallow embedding of
      [working_functions.py] and the properties of its record protocol.

    The Python module runs three model-backed judges per input row, each
    through a forced tool call, and merges the per-judge records into the
    row.  This file embeds the module function by function.  The hosted
    model, [json.loads], [str()] and the file system are not part of the
    module: they are the variables of the section [Module_], so every
    theorem holds for all of their behaviours. *)

From Stdlib Require Import ZArith String Ascii List DecimalString Permutation.
From stdpp Require Import gmap strings list fin_maps.

Local Open Scope Z_scope.

(** ** Python values *)

(** The values that flow through the module are those [json.loads] can
    produce.  A [str] is a Rocq string (code points below 256); a [float] is
    carried by the text [json.dumps] prints for it; a [dict] keeps its
    insertion order, which [json.dumps] follows. *)
#[warnings="-register-all"]
Inductive pyval : Type :=
| PNone
| PBool (b : bool)
| PInt (z : Z)
| PFloat (repr : string)
| PStr (s : string)
| PList (items : list pyval)
| PDict (kvs : list (string * pyval)).

(** [d.get(k)] and [d.get(k, default)] on an insertion-ordered dict. *)
Fixpoint dict_find (k : string) (kvs : list (string * pyval)) : option pyval :=
  match kvs with
  | [] => None
  | (k', v) :: rest => if String.eqb k' k then Some v else dict_find k rest
  end.

Definition dict_get (kvs : list (string * pyval)) (k : string) (dflt : pyval) : pyval :=
  default dflt (dict_find k kvs).

(** [k in d]. *)
Definition dict_mem (k : string) (kvs : list (string * pyval)) : bool :=
  match dict_find k kvs with Some _ => true | None => false end.

Definition type_name (v : pyval) : string :=
  match v with
  | PNone => "NoneType"
  | PBool _ => "bool"
  | PInt _ => "int"
  | PFloat _ => "float"
  | PStr _ => "str"
  | PList _ => "list"
  | PDict _ => "dict"
  end.

(** ** Exceptions *)

(** Only subclasses of [Exception] are modelled; an exception is known by
    its [str(e)], the one thing the module reads from it. *)
Inductive exn : Type := Exception (msg : string).

Definition exn_str (e : exn) : string := let 'Exception m := e in m.

Inductive res (A : Type) : Type :=
| Ret (a : A)
| Raise (e : exn).
Arguments Ret {A} a.
Arguments Raise {A} e.

(** Sequencing: the first exception raised ends the computation. *)
#[global] Instance res_bind : MBind res := λ A B k m,
  match m with
  | Ret a => k a
  | Raise e => Raise e
  end.
#[global] Instance res_ret : MRet res := λ A a, Ret a.

(** [v.get] on a value that may not be a dict: an [AttributeError]
    otherwise. *)
Definition no_attribute (v : pyval) (attr : string) : exn :=
  Exception ("'" +:+ type_name v +:+ "' object has no attribute '" +:+ attr +:+ "'").

Definition py_get (v : pyval) (k : string) (dflt : pyval) : res pyval :=
  match v with
  | PDict kvs => Ret (dict_get kvs k dflt)
  | _ => Raise (no_attribute v "get")
  end.

(** ** [json.dumps] with its defaults *)

Definition dquote : ascii := ascii_of_nat 34.
Definition backslash : ascii := ascii_of_nat 92.
Definition newline : ascii := ascii_of_nat 10.

Definition hex_digit (n : nat) : ascii :=
  ascii_of_nat (if Nat.ltb n 10 then 48 + n else 87 + n)%nat.

(** [ESCAPE_ASCII]: every character outside [' '..'~'], the quote and the
    backslash are escaped. *)
Definition escape_char (c : ascii) : string :=
  let n := nat_of_ascii c in
  let esc (x : ascii) := String backslash (String x EmptyString) in
  if Nat.eqb n 34 then esc dquote
  else if Nat.eqb n 92 then esc backslash
  else if Nat.eqb n 10 then esc "n"%char
  else if Nat.eqb n 13 then esc "r"%char
  else if Nat.eqb n 9 then esc "t"%char
  else if Nat.eqb n 8 then esc "b"%char
  else if Nat.eqb n 12 then esc "f"%char
  else if (Nat.leb 32 n && Nat.leb n 126)%bool then String c EmptyString
  else String backslash
         (String "u"%char
            (String "0"%char
               (String "0"%char
                  (String (hex_digit (n / 16)) (String (hex_digit (n mod 16)) EmptyString))))).

Fixpoint escape_chars (s : string) : string :=
  match s with
  | EmptyString => EmptyString
  | String c rest => escape_char c +:+ escape_chars rest
  end.

Definition encode_basestring_ascii (s : string) : string :=
  String dquote (escape_chars s +:+ String dquote EmptyString).

Definition int_repr (z : Z) : string := NilZero.string_of_int (Z.to_int z).

Fixpoint json_dumps (v : pyval) : string :=
  match v with
  | PNone => "null"
  | PBool true => "true"
  | PBool false => "false"
  | PInt z => int_repr z
  | PFloat r => r
  | PStr s => encode_basestring_ascii s
  | PList items =>
      "[" +:+
      (fix elems (l : list pyval) : string :=
         match l with
         | [] => ""
         | x :: l' =>
             match l' with
             | [] => json_dumps x
             | _ :: _ => json_dumps x +:+ ", " +:+ elems l'
             end
         end) items
      +:+ "]"
  | PDict kvs =>
      "{" +:+
      (fix members (l : list (string * pyval)) : string :=
         match l with
         | [] => ""
         | (k, x) :: l' =>
             let member := encode_basestring_ascii k +:+ ": " +:+ json_dumps x in
             match l' with
             | [] => member
             | _ :: _ => member +:+ ", " +:+ members l'
             end
         end) kvs
      +:+ "}"
  end.

(** ** The objects of the hosted-model client *)

(** A tool function as the client sees it: its [__name__] and docstring.
    The bodies are placeholders that are never called. *)
Record tool_function : Type := { fn_name : string; fn_doc : string }.

Definition check_accuracy : tool_function :=
  {| fn_name := "check_accuracy";
     fn_doc := "Validates if the text is factually correct." |}.
Definition check_completeness : tool_function :=
  {| fn_name := "check_completeness";
     fn_doc := "Checks if the text answers all parts comprehensively." |}.
Definition check_empathy : tool_function :=
  {| fn_name := "check_empathy";
     fn_doc := "Checks if the tone is appropriate and supportive." |}.

(** [part.function_call]: its name and its [args] mapping (empty when the
    model sent none). *)
Record FunctionCall : Type := { fc_name : string; fc_args : list (string * pyval) }.

(** A falsy [part.function_call] is [None]. *)
Record Part : Type := { function_call : option FunctionCall }.
Record Candidate : Type := { content_parts : list Part }.
Record ChatResponse : Type := { candidates : list Candidate }.

Inductive tool_config : Type := forced_mode | auto_mode.

Inductive chat_message : Type :=
| UserText (text : pyval)
| ToolResponse (name : string) (response : list (string * pyval)).

(** One conversation: what [chat.send_message] does with each message. *)
Record ChatSession : Type :=
  { send_message : chat_message → tool_config → res ChatResponse }.

(** [response.text] may itself raise (a blocked or empty reply). *)
Record ContentResponse : Type := { text : res string }.

Record GenerativeModel : Type :=
  { generate_content : string → res ContentResponse;
    start_chat : res ChatSession }.

(** The row dictionaries live in a store of objects, so that copying a row
    and updating the copy can be told apart from updating the row. *)
Definition loc : Type := nat.

Definition deref (h : list (gmap string pyval)) (l : loc) : gmap string pyval :=
  default ∅ (h !! l).

Definition alloc (h : list (gmap string pyval)) (d : gmap string pyval)
  : list (gmap string pyval) * loc :=
  (h ++ [d], length h).

(** [obj.update(other)]: the keys of [other] win. *)
Definition dict_update (h : list (gmap string pyval)) (l : loc) (other : gmap string pyval)
  : list (gmap string pyval) :=
  <[l := other ∪ deref h l]> h.

Definition nl : string := String newline EmptyString.
Definition quoted (s : string) : string := String dquote (s +:+ String dquote EmptyString).

Definition grade_key (agent_name : string) : string := agent_name +:+ "_grade".
Definition reason_key (agent_name : string) : string := agent_name +:+ "_reason".
Definition graph_key (agent_name : string) : string := agent_name +:+ "_graph".

Inductive script_outcome : Type :=
| SysExit (code : Z)
| InputFileMissing
| Saved (filename : string) (rows : list (gmap string pyval)).

Definition MAX_WORKERS : nat := 3.

Section Module_.

(** What the module imports and the world it runs in. *)
Variable json_loads : string → res pyval.
Variable py_str : pyval → string.
Variable genai_GenerativeModel :
  string → list tool_function → option string → GenerativeModel.
Variable protos_FunctionResponse : string → list (string * pyval) → res chat_message.
Variable as_completed :
  list (res (gmap string pyval)) → list (res (gmap string pyval)).
Variable pd_read_csv : string → res (list (gmap string pyval)).
Variable os_path_exists : string → bool.
Variable os_getenv : string → option string.

(** *** LLM judge *)

Definition judge_prompt (criteria_name criteria_desc : string) (content : pyval) : string :=
  nl +:+
  "    ROLE: Specialized Evaluator for " +:+ criteria_name +:+ "." +:+ nl +:+
  "    TASK: Analyze the " +:+ quoted "Content" +:+ " against the " +:+
    quoted "Criteria" +:+ "." +:+ nl +:+
  nl +:+
  "    CRITERIA DESCRIPTION: " +:+ criteria_desc +:+ nl +:+
  "    CONTENT: " +:+ py_str content +:+ nl +:+
  nl +:+
  "    OUTPUT FORMAT: Return a valid JSON object with:" +:+ nl +:+
  "    1. " +:+ quoted "score" +:+ ": 1 (Pass) or 0 (Fail)." +:+ nl +:+
  "    2. " +:+ quoted "explanation" +:+ ": A brief explanation." +:+ nl +:+
  "    3. " +:+ quoted "graph_nodes" +:+ ": A list of objects {" +:+ quoted "id" +:+ ": " +:+
    quoted "concept_or_claim" +:+ ", " +:+ quoted "type" +:+ ": " +:+ quoted "tag" +:+ "}." +:+ nl +:+
  "       - Extract key concepts from the text relevant to the critique." +:+ nl +:+
  "    4. " +:+ quoted "graph_edges" +:+ ": A list of objects {" +:+ quoted "source" +:+ ": " +:+
    quoted "id" +:+ ", " +:+ quoted "target" +:+ ": " +:+ quoted "id" +:+ ", " +:+
    quoted "relationship" +:+ ": " +:+ quoted "verb" +:+ "}." +:+ nl +:+
  "       - Map the logic. E.g., " +:+ quoted "Input Text" +:+ " -> " +:+ quoted "LACKS" +:+
    " -> " +:+ quoted "Empathy" +:+ "." +:+ nl +:+
  "    ".

(** The dictionary of the [except] branch. *)
Definition judge_crashed (e : exn) : pyval :=
  PDict [("score", PInt 0);
         ("explanation", PStr ("Judge crashed: " +:+ exn_str e));
         ("graph_nodes", PList []);
         ("graph_edges", PList [])].

Definition run_judgment_llm (criteria_name criteria_desc : string) (content : pyval)
  : res pyval :=
  let judge_model := genai_GenerativeModel "gemini-2.5-flash" [] None in
  let prompt := judge_prompt criteria_name criteria_desc content in
  match (response ← generate_content judge_model prompt;
         response_text ← text response;
         json_loads response_text) with
  | Ret v => Ret v
  | Raise e => Ret (judge_crashed e)
  end.

(** *** Agent factory *)

Definition system_instruction (agent_name : string) (tool : tool_function) : string :=
  nl +:+
  "    ROLE: " +:+ agent_name +:+ " Validator." +:+ nl +:+
  "    TASK: You are a classifier." +:+ nl +:+
  "    1. Receive user text." +:+ nl +:+
  "    2. IMMEDIATELY call the function '" +:+ fn_name tool +:+ "'." +:+ nl +:+
  "    3. Pass the user text into the tool's 'text_content' argument." +:+ nl +:+
  "    ".

Definition handle_tool_call (agent_name criteria_desc : string)
    (tool_call : FunctionCall) (context_text : pyval) : res pyval :=
  let input_text :=
    if (negb (bool_decide (fc_args tool_call = [])) &&
        dict_mem "text_content" (fc_args tool_call))%bool
    then dict_get (fc_args tool_call) "text_content" PNone
    else context_text in
  result ← run_judgment_llm agent_name criteria_desc input_text;
  _ ← py_get result "score" PNone;
  judgment_score ← py_get result "score" PNone;
  judgment_reason ← py_get result "explanation" PNone;
  graph_nodes ← py_get result "graph_nodes" (PList []);
  graph_edges ← py_get result "graph_edges" (PList []);
  Ret (PDict [("status", PStr "success");
              ("judgment_score", judgment_score);
              ("judgment_reason", judgment_reason);
              ("graph_nodes", graph_nodes);
              ("graph_edges", graph_edges)]).

Definition create_agent (agent_name : string) (tool : tool_function) (criteria_desc : string)
  : GenerativeModel * (FunctionCall → pyval → res pyval) :=
  let tools_for_model := [tool] in
  let chat_model :=
    genai_GenerativeModel "gemini-2.5-flash" tools_for_model
      (Some (system_instruction agent_name tool)) in
  (chat_model, handle_tool_call agent_name criteria_desc).

(** *** Threaded worker *)

(** The initial [final_data]. *)
Definition default_record (agent_name : string) : gmap string pyval :=
  <[graph_key agent_name := PStr "[]"]>
    (<[reason_key agent_name := PStr "Failed to run"]>
       (<[grade_key agent_name := PInt 0]> ∅)).

(** The three assignments made under [isinstance(result, dict)]. *)
Definition store_result (agent_name : string) (result : pyval)
    (final_data : gmap string pyval) : gmap string pyval :=
  match result with
  | PDict kvs =>
      let graph_data :=
        PDict [("nodes", dict_get kvs "graph_nodes" PNone);
               ("edges", dict_get kvs "graph_edges" PNone)] in
      <[graph_key agent_name := PStr (json_dumps graph_data)]>
        (<[reason_key agent_name := dict_get kvs "judgment_reason" (PStr "")]>
           (<[grade_key agent_name := dict_get kvs "judgment_score" (PInt 0)]> final_data))
  | _ => final_data
  end.

(** The body of the [try]: the state of [final_data] when the body ends,
    and whether it ended normally or by an exception. *)
Definition try_block (agent_name : string) (chat : ChatSession)
    (handle : FunctionCall → pyval → res pyval) (user_query : pyval)
    (final_data : gmap string pyval) : gmap string pyval * res unit :=
  match send_message chat (UserText user_query) forced_mode with
  | Raise e => (final_data, Raise e)
  | Ret response =>
      match candidates response with
      | [] => (final_data, Ret tt)
      | candidate :: _ =>
          match content_parts candidate with
          | [] => (final_data, Ret tt)
          | part :: _ =>
              match function_call part with
              | None => (final_data, Ret tt)
              | Some fc =>
                  match handle fc user_query with
                  | Raise e => (final_data, Raise e)
                  | Ret result =>
                      (store_result agent_name result final_data,
                       tool_resp ← protos_FunctionResponse (fc_name fc) [("result", result)];
                       _ ← send_message chat tool_resp auto_mode;
                       Ret tt)
                  end
              end
          end
      end
  end.

(** [start_chat] runs before the [try], so what it raises escapes the
    worker; the two [to_tool_config] calls only build the constants
    [forced_mode] and [auto_mode]. *)
Definition run_agent_threaded (agent_name : string) (agent_model : GenerativeModel)
    (handle : FunctionCall → pyval → res pyval) (user_query : pyval)
  : res (gmap string pyval) :=
  chat ← start_chat agent_model;
  let final_data := default_record agent_name in
  let '(final_data, outcome) := try_block agent_name chat handle user_query final_data in
  match outcome with
  | Ret _ => Ret final_data
  | Raise e =>
      Ret (<[reason_key agent_name := PStr ("Error: " +:+ exn_str e)]> final_data)
  end.

(** *** Orchestrator *)

(** One turn of the [as_completed] loop. *)
Definition merge_future (results_to_merge : gmap string pyval)
    (future : res (gmap string pyval)) : gmap string pyval :=
  match future with
  | Ret data => data ∪ results_to_merge
  | Raise exc => results_to_merge
  end.

Definition submit_all (answer_text : pyval)
    (active_agents_dict : list (string * (GenerativeModel * (FunctionCall → pyval → res pyval))))
  : list (res (gmap string pyval)) :=
  (λ '(name, (model, handler)), run_agent_threaded name model handler answer_text)
    <$> active_agents_dict.

Definition process_single_row_threaded (h : list (gmap string pyval)) (row : loc)
    (active_agents_dict : list (string * (GenerativeModel * (FunctionCall → pyval → res pyval))))
  : list (gmap string pyval) * loc :=
  let answer_text := default PNone (deref h row !! "Answer") in
  let futures := submit_all answer_text active_agents_dict in
  let results_to_merge := foldl merge_future ∅ (as_completed futures) in
  let '(h, combined) := alloc h (deref h row) in
  (dict_update h combined results_to_merge, combined).

(** *** Batch driver *)

Definition dummy_data : list (gmap string pyval) :=
  [ <["Answer" := PStr "The sun is cold and blue."]> (<["id" := PInt 101]> ∅);
    <["Answer" := PStr "I understand this is difficult. The treatment is effective."]>
      (<["id" := PInt 102]> ∅) ].

Definition agent_configs : list (string * tool_function * string) :=
  [ ("Accuracy", check_accuracy, "Factually accurate, citing correct numbers.");
    ("Completeness", check_completeness, "Addresses every aspect of the question.");
    ("Empathy", check_empathy, "Tone is warm, understanding, and human-like.") ].

Definition active_agents
  : list (string * (GenerativeModel * (FunctionCall → pyval → res pyval))) :=
  (λ '(name, func, desc), (name, create_agent name func desc)) <$> agent_configs.

(** The loop over [df.iterrows()]. *)
Fixpoint iterrows (h : list (gmap string pyval)) (index : Z)
    (rows : list (gmap string pyval)) (final_rows : list loc)
  : list (gmap string pyval) * list loc :=
  match rows with
  | [] => (h, final_rows)
  | row :: rest =>
      let row_dict :=
        match row !! "id" with
        | Some _ => row
        | None => <["id" := PInt index]> row
        end in
      let '(h, row_loc) := alloc h row_dict in
      let '(h, enriched_row) := process_single_row_threaded h row_loc active_agents in
      iterrows h (index + 1) rest (final_rows ++ [enriched_row])
  end.

Definition run_parallel_system_threaded (csv_path : string) : script_outcome :=
  let df :=
    match pd_read_csv csv_path with
    | Ret df => df
    | Raise _ => dummy_data
    end in
  let '(h, final_rows) := iterrows [] 0 df [] in
  Saved "FINAL_threaded_report_with_graphs.csv" (deref h <$> final_rows).

(** [working_functions.py] run as a script: the key check at import time,
    then the [__main__] block. *)
Definition working_functions_main : script_outcome :=
  match os_getenv "GOOGLE_API_KEY" with
  | None | Some EmptyString => SysExit 1
  | Some _ =>
      if os_path_exists "sm_answers.csv"
      then run_parallel_system_threaded "sm_answers.csv"
      else InputFileMissing
  end.

End Module_.

(** ** Scripted worlds for the examples *)

(** A parser that agrees with [json.loads] on the texts [json.dumps] prints
    for the listed values, and rejects every other text. *)
Definition loads_known (known : list pyval) (s : string) : res pyval :=
  match List.find (λ v, String.eqb (json_dumps v) s) known with
  | Some v => Ret v
  | None => Raise (Exception "Expecting value: line 1 column 1 (char 0)")
  end.

(** [str()], exact on the scalars the examples format. *)
Definition str_scalar (v : pyval) : string :=
  match v with
  | PStr s => s
  | PNone => "None"
  | PBool true => "True"
  | PBool false => "False"
  | PInt z => int_repr z
  | PFloat r => r
  | _ => json_dumps v
  end.

(** A conversation that answers the user text with [first] and the tool
    response with [followup]. *)
Definition scripted_chat (first followup : res ChatResponse) : ChatSession :=
  {| send_message := λ m _,
       match m with
       | UserText _ => first
       | ToolResponse _ _ => followup
       end |}.

(** A hosted model whose judge always answers [judge] and whose chats all
    follow one script. *)
Definition scripted_model (judge : res ContentResponse) (chat : res ChatSession)
  : GenerativeModel :=
  {| generate_content := λ _, judge; start_chat := chat |}.

Definition scripted_genai (judge : res ContentResponse) (chat : res ChatSession)
  : string → list tool_function → option string → GenerativeModel :=
  λ _ _ _, scripted_model judge chat.

Definition build_response (name : string) (response : list (string * pyval))
  : res chat_message :=
  Ret (ToolResponse name response).

Definition tool_call_reply (fc : FunctionCall) : ChatResponse :=
  {| candidates := [ {| content_parts := [ {| function_call := Some fc |} ] |} ] |}.

Definition no_candidates : ChatResponse := {| candidates := [] |}.

Definition text_reply (v : pyval) : res ContentResponse :=
  Ret {| text := Ret (json_dumps v) |}.

Definition sample_call : FunctionCall :=
  {| fc_name := "check_accuracy";
     fc_args := [("text_content", PStr "The sun is cold and blue.")] |}.

Definition verdict (score : pyval) (explanation : string) : pyval :=
  PDict [("score", score); ("explanation", PStr explanation);
         ("graph_nodes", PList [PDict [("id", PStr "sun"); ("type", PStr "claim")]]);
         ("graph_edges", PList [])].

Definition sample_row : gmap string pyval :=
  <["Answer" := PStr "The sun is cold and blue."]> (<["id" := PInt 101]> ∅).

(** ** The shape of a graph payload *)

Definition record_keys (agent_name : string) : gset string :=
  {[ grade_key agent_name; reason_key agent_name; graph_key agent_name ]}.

(** A JSON text for an object with exactly the keys [nodes] and [edges],
    each bound to an array: what [json.dumps] prints for such an object. *)
Definition encodes_graph (s : string) : Prop :=
  ∃ nodes edges : list pyval,
    s = json_dumps (PDict [("nodes", PList nodes); ("edges", PList edges)]).

(** ** Strings: the generated field names *)

Fixpoint last_char (s : string) : option ascii :=
  match s with
  | EmptyString => None
  | String c EmptyString => Some c
  | String _ rest => last_char rest
  end.

(** ** What one future can contribute to the merge *)

Definition future_dom (future : res (gmap string pyval)) : gset string :=
  match future with
  | Ret data => dom data
  | Raise _ => ∅
  end.

(** ** Failure of the judge's request *)

(** The three ways the body of the [try] in [run_judgment_llm] can fail:
    the request raises, reading [response.text] raises, or the text is
    rejected by [json.loads]. *)
Inductive judge_failure (json_loads : string → res pyval) (judge_model : GenerativeModel)
    (prompt : string) (e : exn) : Prop :=
| request_raises :
    generate_content judge_model prompt = Raise e →
    judge_failure json_loads judge_model prompt e
| text_raises (response : ContentResponse) :
    generate_content judge_model prompt = Ret response →
    text response = Raise e →
    judge_failure json_loads judge_model prompt e
| loads_raises (response : ContentResponse) (response_text : string) :
    generate_content judge_model prompt = Ret response →
    text response = Ret response_text →
    json_loads response_text = Raise e →
    judge_failure json_loads judge_model prompt e.

(** The argument the callback hands to the judge. *)
Definition callback_input (tool_call : FunctionCall) (context_text : pyval) : pyval :=
  match dict_find "text_content" (fc_args tool_call) with
  | Some v => v
  | None => context_text
  end.

(** ** Protocol violation *)

(** The forced reply carries no tool call: no candidate, no part in the
    first candidate, or a first part that is not a function call. *)
Definition no_tool_call (response : ChatResponse) : bool :=
  match candidates response with
  | [] => true
  | candidate :: _ =>
      match content_parts candidate with
      | [] => true
      | part :: _ =>
          match function_call part with
          | None => true
          | Some _ => false
          end
      end
  end.

(** The first part of the forced reply, when it is a tool call. *)
Definition first_tool_call (response : ChatResponse) : option FunctionCall :=
  match candidates response with
  | [] => None
  | candidate :: _ =>
      match content_parts candidate with
      | [] => None
      | part :: _ => function_call part
      end
  end.

(** ** Records and the follow-up message, named *)

(** The dictionary with the three fields of one agent. *)
Definition record_of (agent_name : string) (grade reason graph : pyval)
  : gmap string pyval :=
  <[graph_key agent_name := graph]>
    (<[reason_key agent_name := reason]>
       (<[grade_key agent_name := grade]> ∅)).

(** The dictionary the callback builds from the judge's dictionary. *)
Definition callback_record (kvs : list (string * pyval)) : pyval :=
  PDict [("status", PStr "success");
         ("judgment_score", dict_get kvs "score" PNone);
         ("judgment_reason", dict_get kvs "explanation" PNone);
         ("graph_nodes", dict_get kvs "graph_nodes" (PList []));
         ("graph_edges", dict_get kvs "graph_edges" (PList []))].

(** Building the function-response part and sending it in automatic mode. *)
Definition send_followup
    (protos_FunctionResponse : string → list (string * pyval) → res chat_message)
    (chat : ChatSession) (fc : FunctionCall) (result : pyval) : res ChatResponse :=
  tool_resp ← protos_FunctionResponse (fc_name fc) [("result", result)];
  send_message chat tool_resp auto_mode.

(** The text [json.dumps] prints for a graph with no nodes and no edges. *)
Definition empty_graph_text : string :=
  "{" +:+ quoted "nodes" +:+ ": [], " +:+ quoted "edges" +:+ ": []}".

(** * [visualize_graphs.py] *)

(** Truth value testing.  A float is known by its printed text, and the
    two zeros print as [0.0] and [-0.0]. *)
Definition truthy (v : pyval) : bool :=
  match v with
  | PNone => false
  | PBool b => b
  | PInt z => negb (z =? 0)
  | PFloat r => negb (String.eqb r "0.0" || String.eqb r "-0.0")
  | PStr s => negb (String.eqb s "")
  | PList items => match items with [] => false | _ :: _ => true end
  | PDict kvs => match kvs with [] => false | _ :: _ => true end
  end.

(** [for x in v]: the elements of a list, the characters of a string, the
    keys of a dict; a [TypeError] for the other values. *)
Definition py_iter (v : pyval) : res (list pyval) :=
  match v with
  | PList items => Ret items
  | PStr s => Ret ((λ c, PStr (String c EmptyString)) <$> list_ascii_of_string s)
  | PDict kvs => Ret (PStr <$> kvs.*1)
  | _ => Raise (Exception ("'" +:+ type_name v +:+ "' object is not iterable"))
  end.

(** [pd.read_csv] as the visualizer tells its outcomes apart: only
    [FileNotFoundError] is caught. *)
Inductive read_result : Type :=
| ReadOk (df : list (gmap string pyval))
| ReadFileNotFound
| ReadRaises (e : exn).

(** [df.iloc[i]]: a negative position counts from the end. *)
Definition iloc (df : list (gmap string pyval)) (i : Z) : res (gmap string pyval) :=
  let n := Z.of_nat (length df) in
  let position := if 0 <=? i then i else n + i in
  if (0 <=? position) && (position <? n)
  then Ret (default ∅ (df !! Z.to_nat position))
  else Raise (Exception "single positional indexer is out-of-bounds").

(** [os.path.join] of two components (POSIX). *)
Definition os_path_join (a b : string) : string :=
  match b with
  | String "/" _ => b
  | _ =>
      match last_char a with
      | None => b
      | Some "/"%char => a +:+ b
      | Some _ => a +:+ "/" +:+ b
      end
  end.

Definition color_map (agent : string) : option string :=
  if String.eqb agent "Accuracy" then Some "#FF9999"
  else if String.eqb agent "Completeness" then Some "#99CCFF"
  else if String.eqb agent "Empathy" then Some "#99FF99"
  else if String.eqb agent "Input" then Some "#FFFF99"
  else None.

Definition criteria_list : list string := ["Accuracy"; "Completeness"; "Empathy"].

Inductive viz_outcome : Type :=
| VizFileNotFound
| VizOutOfBounds
| VizEmptyGraph
| VizSaved (filename : string).

Section Visualize.

(** The libraries of the visualizer.  A [Raise] of [json_loads] is a
    [JSONDecodeError]; [Graph] is the state of a [networkx.DiGraph];
    [plt_draw] stands for the layout, the drawing calls and [savefig]. *)
Variable json_loads : string → res pyval.
Variable py_str : pyval → string.
Variable pd_read_csv : string → read_result.
Variable pd_notna : pyval → bool.
Variable Graph : Type.
Variable nx_DiGraph : Graph.
Variable nx_add_edge : Graph → pyval → pyval → pyval → string → res Graph.
Variable nx_has_node : Graph → pyval → bool.
Variable nx_set_node_attr : Graph → pyval → string → string → res Graph.
Variable nx_number_of_nodes : Graph → nat.
Variable nx_node_agents : Graph → list (option string).
Variable plt_draw : Graph → list string → string → string → res unit.

(** The loop over the edges of one criterion. *)
Fixpoint add_edges (criteria : string) (edges : list pyval) (G : Graph) : res Graph :=
  match edges with
  | [] => Ret G
  | edge :: rest =>
      source ← py_get edge "source" PNone;
      target ← py_get edge "target" PNone;
      relation ← py_get edge "relationship" (PStr "relates");
      if truthy source && truthy target
      then
        G ← nx_add_edge G source target relation criteria;
        G ← (if nx_has_node G source then Ret G
             else nx_set_node_attr G source "agent" criteria);
        G ← (if nx_has_node G target then Ret G
             else nx_set_node_attr G target "agent" criteria);
        add_edges criteria rest G
      else add_edges criteria rest G
  end.

(** One turn of the loop over the criteria. *)
Definition add_criterion (row : gmap string pyval) (criteria : string) (G : Graph)
  : res Graph :=
  let col_name := criteria +:+ "_graph" in
  match row !! col_name with
  | None => Ret G
  | Some cell =>
      if pd_notna cell
      then
        match cell with
        | PStr s =>
            match json_loads s with
            | Raise _ => Ret G
            | Ret graph_data =>
                edges ← py_get graph_data "edges" (PList []);
                if truthy edges
                then (items ← py_iter edges; add_edges criteria items G)
                else Ret G
            end
        | _ =>
            Raise (Exception ("the JSON object must be str, bytes or bytearray, not "
                              +:+ type_name cell))
        end
      else Ret G
  end.

Fixpoint add_criteria (row : gmap string pyval) (criteria : list string) (G : Graph)
  : res Graph :=
  match criteria with
  | [] => Ret G
  | c :: rest => G ← add_criterion row c G; add_criteria row rest G
  end.

Definition visualize_csv_row (csv_path : string) (row_index : Z) (output_dir : string)
  : res viz_outcome :=
  match pd_read_csv csv_path with
  | ReadFileNotFound => Ret VizFileNotFound
  | ReadRaises e => Raise e
  | ReadOk df =>
      if Z.of_nat (length df) <=? row_index
      then Ret VizOutOfBounds
      else
        row ← iloc df row_index;
        let answer_id := default (PStr "Unknown") (row !! "id") in
        G ← add_criteria row criteria_list nx_DiGraph;
        if Nat.eqb (nx_number_of_nodes G) 0
        then Ret VizEmptyGraph
        else
          let colors :=
            (λ agent, default "#CCCCCC" (color_map (default "Input" agent)))
              <$> nx_node_agents G in
          let title := "Critique Graph for Answer #" +:+ py_str answer_id in
          let filename :=
            os_path_join output_dir ("graph_id_" +:+ py_str answer_id +:+ ".png") in
          _ ← plt_draw G colors title filename;
          Ret (VizSaved filename)
  end.

End Visualize.

(** The edges of a list that the visualizer draws: those whose [source]
    and [target] are both truthy, each with its label. *)
Definition drawable (edges : list pyval) : list (pyval * pyval * pyval) :=
  omap (λ edge,
          match edge with
          | PDict kvs =>
              let source := dict_get kvs "source" PNone in
              let target := dict_get kvs "target" PNone in
              if truthy source && truthy target
              then Some (source, target, dict_get kvs "relationship" (PStr "relates"))
              else None
          | _ => None
          end) edges.

(** Adding a list of edges to a graph, one [add_edge] call after another. *)
Fixpoint add_all {Graph : Type}
    (nx_add_edge : Graph → pyval → pyval → pyval → string → res Graph)
    (criteria : string) (edges : list (pyval * pyval * pyval)) (G : Graph) : res Graph :=
  match edges with
  | [] => Ret G
  | (source, target, relation) :: rest =>
      G ← nx_add_edge G source target relation criteria;
      add_all nx_add_edge criteria rest G
  end.

(** A column that contributes no edge: absent, missing value, text that is
    not JSON, or an object whose [edges] is absent or falsy. *)
Inductive silent_column (json_loads : string → res pyval) (pd_notna : pyval → bool)
    (row : gmap string pyval) (criteria : string) : Prop :=
| column_absent :
    row !! (criteria +:+ "_graph") = None →
    silent_column json_loads pd_notna row criteria
| column_missing_value (cell : pyval) :
    row !! (criteria +:+ "_graph") = Some cell → pd_notna cell = false →
    silent_column json_loads pd_notna row criteria
| column_not_json (s : string) (e : exn) :
    row !! (criteria +:+ "_graph") = Some (PStr s) → json_loads s = Raise e →
    silent_column json_loads pd_notna row criteria
| column_no_edges (s : string) (kvs : list (string * pyval)) :
    row !! (criteria +:+ "_graph") = Some (PStr s) → json_loads s = Ret (PDict kvs) →
    truthy (dict_get kvs "edges" (PList [])) = false →
    silent_column json_loads pd_notna row criteria.

(** A graph of edge calls, for the examples: the list of the edges added,
    a node being any endpoint of one of them. *)
Definition edge_list_add (G : list (pyval * pyval * pyval * string))
    (source target relation : pyval) (criteria : string)
  : res (list (pyval * pyval * pyval * string)) :=
  match source, target with
  | PList _, _ | PDict _, _ => Raise (Exception ("unhashable type: '" +:+ type_name source +:+ "'"))
  | _, PList _ | _, PDict _ => Raise (Exception ("unhashable type: '" +:+ type_name target +:+ "'"))
  | _, _ => Ret (G ++ [(source, target, relation, criteria)])
  end.

Definition edge_list_has_node (G : list (pyval * pyval * pyval * string)) (n : pyval)
  : bool :=
  existsb (λ '(s, t, _, _),
             String.eqb (json_dumps s) (json_dumps n) ||
             String.eqb (json_dumps t) (json_dumps n)) G.

(** The nodes of an edge list, each once, by their JSON text. *)
Definition edge_list_nodes (G : list (pyval * pyval * pyval * string)) : list string :=
  remove_dups (flat_map (λ '(s, t, _, _), [json_dumps s; json_dumps t]) G).

(** [pd.notna] on scalars: [None] and the float NaN are missing values. *)
Definition notna_scalar (v : pyval) : bool :=
  match v with
  | PNone => false
  | PFloat r => negb (String.eqb r "NaN")
  | _ => true
  end.

(** The visualizer over edge lists, with a drawing step that succeeds. *)
Definition visualize_edge_lists (json_loads : string → res pyval)
    (pd_read_csv : string → read_result)
  : string → Z → string → res viz_outcome :=
  visualize_csv_row json_loads str_scalar pd_read_csv notna_scalar
    (list (pyval * pyval * pyval * string)) [] edge_list_add edge_list_has_node
    (λ _ n _ _, Raise (Exception (json_dumps n)))
    (λ G, length (edge_list_nodes G))
    (λ G, (λ _, None) <$> edge_list_nodes G)
    (λ _ _ _ _, Ret tt).

Definition sample_edges : list pyval :=
  [ PDict [("source", PStr "sun"); ("target", PStr "cold"); ("relationship", PStr "IS")];
    PDict [("source", PStr ""); ("target", PStr "blue")];
    PDict [("source", PStr "Input Text"); ("target", PStr "Accuracy")] ].

(** * [run_pipeline.py] *)

(** [str.isspace] on the code points below 256. *)
Definition is_space (c : ascii) : bool :=
  let n := nat_of_ascii c in
  (Nat.leb 9 n && Nat.leb n 13) || (Nat.leb 28 n && Nat.leb n 32)
  || Nat.eqb n 133 || Nat.eqb n 160.

Fixpoint py_lstrip (s : string) : string :=
  match s with
  | EmptyString => EmptyString
  | String c rest => if is_space c then py_lstrip rest else s
  end.

(** [s.strip()]. *)
Definition py_strip (s : string) : string :=
  String.rev (py_lstrip (String.rev (py_lstrip s))).

(** What the driver acts on: the environment of the process, the files,
    and the record of the [subprocess.run] calls made so far, each with
    the script it ran and the exit status it returned or the exception
    raised when the child could not be run. *)
Record pipeline_state (FS : Type) : Type :=
  { environ : gmap string string;
    files : FS;
    launched : list (string * res Z) }.
Arguments environ {FS} _.
Arguments files {FS} _.
Arguments launched {FS} _.

Inductive pipeline_outcome : Type :=
| Aborted (message : string)
| Success.

Definition pipeline_steps : list string :=
  ["generate_data.py"; "working_functions.py"; "visualize_graphs.py"].

(** The exit status of [working_functions.py] run as a script. *)
Definition exit_status (outcome : script_outcome) : Z :=
  match outcome with
  | SysExit code => code
  | InputFileMissing => 0
  | Saved _ _ => 0
  end.

Section Pipeline.

Variable FS : Type.
Variable os_path_exists : FS → string → bool.
(** [subprocess.run([sys.executable, script])] in a given environment: the
    files it leaves, and its return code or the exception of a child that
    could not be started. *)
Variable subprocess_run : gmap string string → FS → string → FS * res Z.
(** The line [input] reads, or its exception. *)
Variable input : res string.

Definition run_script (script_name : string) (σ : pipeline_state FS)
  : pipeline_state FS * res bool :=
  if negb (os_path_exists (files σ) script_name)
  then (σ, Ret false)
  else
    let '(fs, result) := subprocess_run (environ σ) (files σ) script_name in
    let σ' := {| environ := environ σ;
                 files := fs;
                 launched := launched σ ++ [(script_name, result)] |} in
    match result with
    | Raise e => (σ', Raise e)
    | Ret returncode =>
        if returncode =? 0
        then (σ', Ret (returncode =? 0))
        else (σ', Ret false)
    end.

(** Step 0: ask for the key when the environment has none. *)
Definition check_api_key (σ : pipeline_state FS) : pipeline_state FS * res unit :=
  match environ σ !! "GOOGLE_API_KEY" with
  | Some (String _ _) => (σ, Ret tt)
  | _ =>
      match input with
      | Raise e => (σ, Raise e)
      | Ret line =>
          let key := py_strip line in
          match key with
          | String _ _ =>
              ({| environ := <["GOOGLE_API_KEY" := key]> (environ σ);
                  files := files σ;
                  launched := launched σ |}, Ret tt)
          | EmptyString => (σ, Ret tt)
          end
      end
  end.

(** [if not run_script(name): print(message); return], then the rest. *)
Definition pipeline_step (script_name message : string)
    (rest : pipeline_state FS → pipeline_state FS * res pipeline_outcome)
    (σ : pipeline_state FS) : pipeline_state FS * res pipeline_outcome :=
  match run_script script_name σ with
  | (σ', Raise e) => (σ', Raise e)
  | (σ', Ret false) => (σ', Ret (Aborted message))
  | (σ', Ret true) => rest σ'
  end.

Definition main (σ : pipeline_state FS) : pipeline_state FS * res pipeline_outcome :=
  match check_api_key σ with
  | (σ', Raise e) => (σ', Raise e)
  | (σ', Ret _) =>
      pipeline_step "generate_data.py" "Aborted: Data generation error."
        (pipeline_step "working_functions.py" "Aborted: Error during LLM analysis."
           (pipeline_step "visualize_graphs.py" "Aborted: Error generating graphs."
              (λ σ, (σ, Ret Success)))) σ'
  end.

End Pipeline.

(** The record of a run in which each of the given scripts was run and
    returned 0. *)
Definition all_succeeded (names : list string) : list (string * res Z) :=
  (λ name, (name, Ret 0)) <$> names.

(** What the record of a run of the remaining steps [names] looks like:
    the scripts run are the first of [names], in order; each but the last
    one run returned 0; and the run ends in success exactly when all of
    them were run and returned 0. *)
Definition orderly (names : list string) (log : list (string * res Z))
    (r : res pipeline_outcome) : Prop :=
  log.*1 `prefix_of` names ∧
  (∀ (i : nat) entry, log !! i = Some entry → (S i < length log)%nat → entry.2 = Ret 0) ∧
  (r = Ret Success ↔ log = all_succeeded names).

(** A file system for the examples: the set of existing paths; every
    script exits with the status the table gives it (0 when absent) and
    leaves the files as they are. *)
Definition scripted_run (status : gmap string Z)
  : gmap string string → gset string → string → gset string * res Z :=
  λ _ fs name, (fs, Ret (default 0 (status !! name))).

Definition all_scripts : gset string :=
  {["generate_data.py"; "working_functions.py"; "visualize_graphs.py"]}.

(** A world in which the child [working_functions.py] is the module
    embedded above, run on the files and the environment it is given;
    every other script exits with status 0. *)
Definition module_run
    (genai_GenerativeModel : string → list tool_function → option string → GenerativeModel)
  : gmap string string → gset string → string → gset string * res Z :=
  λ env fs name,
    if String.eqb name "working_functions.py"
    then (fs, Ret (exit_status
                     (working_functions_main (loads_known []) str_scalar
                        genai_GenerativeModel build_response (λ fs, fs)
                        (λ _, Raise (Exception "No such file"))
                        (λ path, bool_decide (path ∈ fs))
                        (λ name, env !! name))))
    else (fs, Ret 0).

(** The enriched row that the orchestrator builds for a row dictionary:
    the row is put in a store of its own and the result read back. *)
Definition enrich
    (protos_FunctionResponse : string → list (string * pyval) → res chat_message)
    (as_completed : list (res (gmap string pyval)) → list (res (gmap string pyval)))
    (active_agents_dict :
       list (string * (GenerativeModel * (FunctionCall → pyval → res pyval))))
    (row : gmap string pyval) : gmap string pyval :=
  let '(h, combined) :=
    process_single_row_threaded protos_FunctionResponse as_completed [row] 0%nat
      active_agents_dict in
  deref h combined.



(** * Facts about the embedding *)

(** ** Serialization and field names *)

Example json_dumps_sample :
  json_dumps (PDict [("nodes", PList [PDict [("id", PStr "sun"); ("type", PStr "claim")]]);
                     ("edges", PList [])])
  = "{" +:+ String dquote "nodes" +:+ String dquote ": [{" +:+
    String dquote "id" +:+ String dquote ": " +:+ String dquote "sun" +:+ String dquote ", " +:+
    String dquote "type" +:+ String dquote ": " +:+ String dquote "claim" +:+ String dquote "}], " +:+
    String dquote "edges" +:+ String dquote ": []}".
Proof. reflexivity. Qed.

Example json_dumps_escapes :
  json_dumps (PList [PInt (-5); PBool true; PNone;
                     PStr (String dquote (String newline (String (ascii_of_nat 233) "")))])
  = "[-5, true, null, " +:+
    String dquote (String backslash (String dquote (String backslash "n"))) +:+
    String backslash "u00e9" +:+ String dquote "]".
Proof. reflexivity. Qed.

Lemma last_char_app (n : string) (c : ascii) (s : string) :
  last_char (n +:+ String c s) = last_char (String c s).
Proof.
  induction n as [|a n IH]; [reflexivity|].
  change (String a n +:+ String c s) with (String a (n +:+ String c s)).
  cbn [last_char]. destruct (n +:+ String c s) eqn:E; [|exact IH].
  destruct n; discriminate.
Qed.

Lemma append_inv_tail (n1 n2 s : string) : n1 +:+ s = n2 +:+ s → n1 = n2.
Proof.
  intros H.
  assert (Hl : ∀ a b, list_ascii_of_string (a +:+ b)
                      = (list_ascii_of_string a ++ list_ascii_of_string b)%list).
  { induction a as [|x a IH]; intros b; [reflexivity|]. simpl. f_equal. apply IH. }
  apply (f_equal list_ascii_of_string) in H. rewrite !Hl in H.
  apply app_inv_tail in H.
  rewrite <- (string_of_list_ascii_of_string n1), <- (string_of_list_ascii_of_string n2).
  by rewrite H.
Qed.

Lemma grade_key_inj n1 n2 : grade_key n1 = grade_key n2 → n1 = n2.
Proof. apply append_inv_tail. Qed.
Lemma reason_key_inj n1 n2 : reason_key n1 = reason_key n2 → n1 = n2.
Proof. apply append_inv_tail. Qed.
Lemma graph_key_inj n1 n2 : graph_key n1 = graph_key n2 → n1 = n2.
Proof. apply append_inv_tail. Qed.

Lemma last_char_grade n : last_char (grade_key n) = Some "e"%char.
Proof. unfold grade_key. by rewrite last_char_app. Qed.
Lemma last_char_reason n : last_char (reason_key n) = Some "n"%char.
Proof. unfold reason_key. by rewrite last_char_app. Qed.
Lemma last_char_graph n : last_char (graph_key n) = Some "h"%char.
Proof. unfold graph_key. by rewrite last_char_app. Qed.

(** A field name that ends in none of [e], [n], [h] is no generated name. *)
Lemma not_record_key (k name : string) (c : ascii) :
  last_char k = Some c → c ≠ "e"%char → c ≠ "n"%char → c ≠ "h"%char →
  k ∉ record_keys name.
Proof.
  intros Hk He Hn Hh. unfold record_keys.
  rewrite !elem_of_union, !elem_of_singleton.
  intros [[->| ->]| ->].
  - rewrite last_char_grade in Hk. congruence.
  - rewrite last_char_reason in Hk. congruence.
  - rewrite last_char_graph in Hk. congruence.
Qed.

Lemma record_keys_disjoint (n1 n2 : string) :
  n1 ≠ n2 → record_keys n1 ## record_keys n2.
Proof.
  intros Hne k. unfold record_keys.
  rewrite !elem_of_union, !elem_of_singleton.
  intros [[->| ->]| ->] [[H|H]|H];
    first [ by apply grade_key_inj in H
          | by apply reason_key_inj in H
          | by apply graph_key_inj in H
          | apply (f_equal last_char) in H;
            rewrite ?last_char_grade, ?last_char_reason, ?last_char_graph in H;
            discriminate ].
Qed.

(** ** The record of one agent run *)

Section Record_facts.

Context (protos_FunctionResponse : string → list (string * pyval) → res chat_message).

Local Abbreviation run_agent := (run_agent_threaded protos_FunctionResponse).
Local Abbreviation try_body := (try_block protos_FunctionResponse).

Lemma default_record_dom (n : string) : dom (default_record n) = record_keys n.
Proof.
  unfold default_record, record_keys. rewrite !dom_insert_L, dom_empty_L. set_solver.
Qed.

Lemma store_result_dom (n : string) (r : pyval) (fd : gmap string pyval) :
  dom fd = record_keys n → dom (store_result n r fd) = record_keys n.
Proof.
  intros Hd. destruct r; simpl; try done.
  rewrite !dom_insert_L, Hd. unfold record_keys. set_solver.
Qed.

Lemma try_block_dom (n : string) chat hd q (fd : gmap string pyval) :
  dom fd = record_keys n → dom (try_body n chat hd q fd).1 = record_keys n.
Proof.
  intros Hd. unfold try_block.
  destruct (send_message chat (UserText q) forced_mode) as [resp|e]; [|done].
  destruct (candidates resp) as [|cand ?]; [done|].
  destruct (content_parts cand) as [|part ?]; [done|].
  destruct (function_call part) as [fc|]; [|done].
  destruct (hd fc q) as [r|e]; [|done].
  simpl. by apply store_result_dom.
Qed.

(** Every record that the worker returns has exactly the three keys of
    its agent. *)
Lemma run_agent_dom (n : string) m hd q (d : gmap string pyval) :
  run_agent n m hd q = Ret d → dom d = record_keys n.
Proof.
  unfold run_agent_threaded. destruct (start_chat m) as [chat|e]; simpl; [|done].
  pose proof (try_block_dom n chat hd q (default_record n) (default_record_dom n)) as Hd.
  destruct (try_body n chat hd q (default_record n)) as [fd [u|e]]; simpl in *.
  - by intros [= <-].
  - intros [= <-]. rewrite dom_insert_L, Hd. unfold record_keys. set_solver.
Qed.

(** Once the conversation has been opened the worker returns a record,
    whatever happens afterwards. *)
Lemma run_agent_returns (n : string) m hd q chat :
  start_chat m = Ret chat → ∃ d, run_agent n m hd q = Ret d.
Proof.
  intros Hc. unfold run_agent_threaded. rewrite Hc. simpl.
  destruct (try_body n chat hd q (default_record n)) as [fd [u|e]]; eauto.
Qed.

End Record_facts.

(** ** Merging the records of a row *)

Lemma merge_future_comm (m : gmap string pyval) (f1 f2 : res (gmap string pyval)) :
  future_dom f1 ## future_dom f2 →
  merge_future (merge_future m f1) f2 = merge_future (merge_future m f2) f1.
Proof.
  destruct f1 as [d1|e1], f2 as [d2|e2]; simpl; try done.
  intros Hd. apply map_disjoint_dom in Hd.
  rewrite !(assoc_L (∪)). f_equal. by apply map_union_comm.
Qed.

(** The keys of the merged dictionary all come from one of the futures. *)
Lemma merge_dom_sub (fs : list (res (gmap string pyval))) (m : gmap string pyval)
    (k : string) :
  k ∈ dom (foldl merge_future m fs) → k ∈ dom m ∨ ∃ f, f ∈ fs ∧ k ∈ future_dom f.
Proof.
  revert m. induction fs as [|f fs IH]; intros m; simpl; [by left|].
  intros Hk. destruct (IH _ Hk) as [Hm|(f' & Hin & Hf')].
  - destruct f as [d|e]; simpl in Hm.
    + rewrite dom_union_L, elem_of_union in Hm. destruct Hm as [Hd|Hm]; [|by left].
      right. exists (Ret d). split; [left|done].
    + by left.
  - right. exists f'. split; [by right|done].
Qed.

(** Every returned record is wholly present in the merged dictionary. *)
Lemma merge_dom_sup (fs : list (res (gmap string pyval))) (m d : gmap string pyval) :
  Ret d ∈ fs → dom d ⊆ dom (foldl merge_future m fs).
Proof.
  assert (Hmono : ∀ fs m, dom m ⊆ dom (foldl merge_future m fs)).
  { clear. induction fs as [|f fs IH]; intros m; simpl; [done|].
    etrans; [|apply IH]. destruct f; simpl; [|done].
    rewrite dom_union_L. set_solver. }
  revert m. induction fs as [|f fs IH]; intros m Hin; [by apply elem_of_nil in Hin|].
  apply elem_of_cons in Hin as [<-|Hin]; simpl.
  - etrans; [|apply Hmono]. rewrite dom_union_L. set_solver.
  - by apply IH.
Qed.

Section Merge_facts.

Context (protos_FunctionResponse : string → list (string * pyval) → res chat_message).

Local Abbreviation run_agent := (run_agent_threaded protos_FunctionResponse).
Local Abbreviation submit := (submit_all protos_FunctionResponse).

Implicit Types (m : gmap string pyval) (f : res (gmap string pyval)).
Implicit Types
  (agents : list (string * (GenerativeModel * (FunctionCall → pyval → res pyval)))).

Lemma future_dom_run (n : string) mdl hd q :
  future_dom (run_agent n mdl hd q) ⊆ record_keys n.
Proof.
  destruct (run_agent n mdl hd q) as [d|e] eqn:E; simpl; [|set_solver].
  by rewrite (run_agent_dom _ _ _ _ _ _ E).
Qed.

(** Agents with distinct names write disjoint sets of fields. *)
Lemma futures_disjoint (n1 n2 : string) mdl1 hd1 mdl2 hd2 q :
  n1 ≠ n2 → future_dom (run_agent n1 mdl1 hd1 q) ## future_dom (run_agent n2 mdl2 hd2 q).
Proof.
  intros Hne. pose proof (future_dom_run n1 mdl1 hd1 q).
  pose proof (future_dom_run n2 mdl2 hd2 q).
  pose proof (record_keys_disjoint n1 n2 Hne). set_solver.
Qed.

(** The merged dictionary does not depend on the order in which the
    futures of distinctly named agents are folded in. *)
Lemma merge_submit_perm q agents agents' :
  agents ≡ₚ agents' → NoDup agents.*1 →
  ∀ m, foldl merge_future m (submit q agents) = foldl merge_future m (submit q agents').
Proof.
  induction 1 as [|a l l' Hp IH|[n1 [m1 h1]] [n2 [m2 h2]] l|l1 l2 l3 H12 IH12 H23 IH23];
    intros Hnd m.
  - done.
  - simpl. apply IH. by inversion Hnd.
  - simpl. f_equal. apply merge_future_comm.
    apply futures_disjoint. inversion Hnd as [|? ? Hin _]; subst.
    intros ->. apply Hin. simpl. left.
  - rewrite IH12 by done. apply IH23.
    by rewrite <- (fmap_Permutation fst _ _ H12).
Qed.

Lemma merge_perm (p : list (res (gmap string pyval)) → list (res (gmap string pyval)))
    q agents :
  (∀ fs, p fs ≡ₚ fs) → NoDup agents.*1 →
  foldl merge_future ∅ (p (submit q agents)) = foldl merge_future ∅ (submit q agents).
Proof.
  intros Hp Hnd.
  destruct (Permutation_map_inv _ _ (Hp (submit q agents))) as (agents' & Heq & Hperm).
  unfold submit_all in *. rewrite Heq.
  symmetry. by apply merge_submit_perm.
Qed.

(** With distinct names, the merged dictionary agrees with each returned
    record on that record's keys. *)
Lemma merge_lookup (p : list (res (gmap string pyval)) → list (res (gmap string pyval)))
    q agents (n : string) mdl hd d (k : string) :
  (∀ fs, p fs ≡ₚ fs) → NoDup agents.*1 → (n, (mdl, hd)) ∈ agents →
  run_agent n mdl hd q = Ret d → k ∈ dom d →
  foldl merge_future ∅ (p (submit q agents)) !! k = d !! k.
Proof.
  intros Hp Hnd Hin Hrun Hk. rewrite merge_perm by done.
  apply list_elem_of_split in Hin as (l1 & l2 & ->).
  assert (Hperm : l1 ++ (n, (mdl, hd)) :: l2 ≡ₚ (l1 ++ l2) ++ [(n, (mdl, hd))]).
  { rewrite <- Permutation_middle, <- Permutation_cons_append. done. }
  rewrite (merge_submit_perm _ _ _ Hperm Hnd).
  unfold submit_all. rewrite fmap_app, foldl_app. simpl. rewrite Hrun. simpl.
  apply elem_of_dom in Hk as [v Hv]. rewrite Hv.
  by apply lookup_union_Some_l.
Qed.

(** What the orchestrator leaves in the store. *)
Lemma process_single_row_threaded_eq
    (p : list (res (gmap string pyval)) → list (res (gmap string pyval)))
    (h : list (gmap string pyval)) (row : loc) agents :
  process_single_row_threaded protos_FunctionResponse p h row agents
  = (h ++ [foldl merge_future ∅
             (p (submit (default PNone (deref h row !! "Answer")) agents)) ∪ deref h row],
     length h).
Proof.
  unfold process_single_row_threaded, alloc, dict_update, deref. f_equal.
  rewrite list_lookup_middle by done. simpl.
  by rewrite insert_app_r_alt, Nat.sub_diag by done.
Qed.

End Merge_facts.

(** ** The judge and the tool callback *)

Section Judge_facts.

Context (json_loads : string → res pyval) (py_str : pyval → string)
        (genai_GenerativeModel :
           string → list tool_function → option string → GenerativeModel).

Local Abbreviation judge := (run_judgment_llm json_loads py_str genai_GenerativeModel).
Local Abbreviation callback := (handle_tool_call json_loads py_str genai_GenerativeModel).

Lemma run_judgment_llm_total (name desc : string) (content : pyval) :
  ∃ v, judge name desc content = Ret v.
Proof.
  unfold run_judgment_llm.
  destruct (generate_content _ _ ≫= _) as [v|e]; eauto.
Qed.

Lemma run_judgment_llm_failure (name desc : string) (content : pyval) (e : exn) :
  judge_failure json_loads (genai_GenerativeModel "gemini-2.5-flash" [] None)
    (judge_prompt py_str name desc content) e →
  judge name desc content = Ret (judge_crashed e).
Proof.
  unfold run_judgment_llm.
  intros [H|r H1 H2|r t H1 H2 H3]; rewrite ?H, ?H1; simpl; rewrite ?H2; simpl;
    rewrite ?H3; done.
Qed.

(** The callback reads its argument as [callback_input] describes. *)
Lemma handle_tool_call_input (name desc : string) (fc : FunctionCall) (ctx : pyval) :
  callback name desc fc ctx
  = (result ← judge name desc (callback_input fc ctx);
     _ ← py_get result "score" PNone;
     judgment_score ← py_get result "score" PNone;
     judgment_reason ← py_get result "explanation" PNone;
     graph_nodes ← py_get result "graph_nodes" (PList []);
     graph_edges ← py_get result "graph_edges" (PList []);
     Ret (PDict [("status", PStr "success");
                 ("judgment_score", judgment_score);
                 ("judgment_reason", judgment_reason);
                 ("graph_nodes", graph_nodes);
                 ("graph_edges", graph_edges)])).
Proof.
  unfold handle_tool_call, callback_input, dict_mem, dict_get.
  destruct (fc_args fc) as [|[k' v] kvs]; [done|].
  rewrite bool_decide_eq_false_2 by done. simpl.
  destruct (String.eqb k' "text_content"); [done|].
  by destruct (dict_find "text_content" kvs).
Qed.

Lemma handle_tool_call_dict (name desc : string) (fc : FunctionCall) (ctx : pyval)
    (kvs : list (string * pyval)) :
  judge name desc (callback_input fc ctx) = Ret (PDict kvs) →
  callback name desc fc ctx
  = Ret (PDict [("status", PStr "success");
                ("judgment_score", dict_get kvs "score" PNone);
                ("judgment_reason", dict_get kvs "explanation" PNone);
                ("graph_nodes", dict_get kvs "graph_nodes" (PList []));
                ("graph_edges", dict_get kvs "graph_edges" (PList []))]).
Proof. intros H. rewrite handle_tool_call_input, H. reflexivity. Qed.

(** Whatever the callback returns is one of its five-field records. *)
Lemma handle_tool_call_inv (name desc : string) (fc : FunctionCall) (ctx r : pyval) :
  callback name desc fc ctx = Ret r →
  ∃ kvs, judge name desc (callback_input fc ctx) = Ret (PDict kvs) ∧
         r = PDict [("status", PStr "success");
                    ("judgment_score", dict_get kvs "score" PNone);
                    ("judgment_reason", dict_get kvs "explanation" PNone);
                    ("graph_nodes", dict_get kvs "graph_nodes" (PList []));
                    ("graph_edges", dict_get kvs "graph_edges" (PList []))].
Proof.
  rewrite handle_tool_call_input.
  destruct (judge name desc (callback_input fc ctx)) as [v|e] eqn:E; [|done].
  destruct v; simpl; try done.
  intros [= <-]. eauto.
Qed.

End Judge_facts.

(** ** Fields of a record and of the enriched row *)

Lemma grade_ne_reason n : grade_key n ≠ reason_key n.
Proof.
  intros H. apply (f_equal last_char) in H.
  rewrite last_char_grade, last_char_reason in H. discriminate.
Qed.

Lemma grade_ne_graph n : grade_key n ≠ graph_key n.
Proof.
  intros H. apply (f_equal last_char) in H.
  rewrite last_char_grade, last_char_graph in H. discriminate.
Qed.

Lemma reason_ne_graph n : reason_key n ≠ graph_key n.
Proof.
  intros H. apply (f_equal last_char) in H.
  rewrite last_char_reason, last_char_graph in H. discriminate.
Qed.

Lemma deref_alloc (h : list (gmap string pyval)) (d : gmap string pyval) :
  deref (h ++ [d]) (length h) = d.
Proof. unfold deref. by rewrite list_lookup_middle. Qed.

Lemma deref_old (h : list (gmap string pyval)) (d : gmap string pyval) (l : loc) :
  (l < length h)%nat → (h ++ [d]) !! l = h !! l.
Proof. intros Hl. by rewrite lookup_app_l. Qed.

Lemma first_tool_call_none (response : ChatResponse) :
  no_tool_call response = true ↔ first_tool_call response = None.
Proof.
  unfold no_tool_call, first_tool_call.
  destruct (candidates response) as [|c ?]; [done|].
  destruct (content_parts c) as [|p ?]; [done|].
  by destruct (function_call p).
Qed.

Section Run_facts.

Context (protos_FunctionResponse : string → list (string * pyval) → res chat_message).

Local Abbreviation run_agent := (run_agent_threaded protos_FunctionResponse).
Local Abbreviation try_body := (try_block protos_FunctionResponse).

(** The body of the [try], by cases on the forced reply. *)
Lemma try_block_violation (n : string) chat hd q fd response :
  send_message chat (UserText q) forced_mode = Ret response →
  first_tool_call response = None →
  try_body n chat hd q fd = (fd, Ret tt).
Proof.
  intros Hs Hf. unfold try_block, first_tool_call in *. rewrite Hs.
  destruct (candidates response) as [|c ?]; [done|].
  destruct (content_parts c) as [|p ?]; [done|].
  by rewrite Hf.
Qed.

Lemma try_block_tool_call (n : string) chat hd q fd response fc :
  send_message chat (UserText q) forced_mode = Ret response →
  first_tool_call response = Some fc →
  try_body n chat hd q fd
  = match hd fc q with
    | Raise e => (fd, Raise e)
    | Ret result =>
        (store_result n result fd,
         tool_resp ← protos_FunctionResponse (fc_name fc) [("result", result)];
         _ ← send_message chat tool_resp auto_mode;
         Ret tt)
    end.
Proof.
  intros Hs Hf. unfold try_block, first_tool_call in *. rewrite Hs.
  destruct (candidates response) as [|c ?]; [done|].
  destruct (content_parts c) as [|p ?]; [done|].
  by rewrite Hf.
Qed.

(** The grade of a returned record is the default 0 or the
    [judgment_score] of a dictionary the callback returned. *)
Lemma run_agent_grade (n : string) mdl hd q d :
  run_agent n mdl hd q = Ret d →
  d !! grade_key n = Some (PInt 0) ∨
  ∃ fc kvs, hd fc q = Ret (PDict kvs) ∧
            d !! grade_key n = Some (dict_get kvs "judgment_score" (PInt 0)).
Proof.
  pose proof (grade_ne_reason n) as Hgr. pose proof (grade_ne_graph n) as Hgg.
  assert (Hdef : default_record n !! grade_key n = Some (PInt 0)).
  { unfold default_record. rewrite !lookup_insert_ne by done. apply lookup_insert_eq. }
  unfold run_agent_threaded. destruct (start_chat mdl) as [chat|e]; simpl; [|done].
  assert (Hbody : ∀ fd u,
    try_body n chat hd q (default_record n) = (fd, u) →
    fd !! grade_key n = Some (PInt 0) ∨
    ∃ fc kvs, hd fc q = Ret (PDict kvs) ∧
              fd !! grade_key n = Some (dict_get kvs "judgment_score" (PInt 0))).
  { intros fd u. unfold try_block.
    destruct (send_message _ _ _) as [resp|e]; [|intros [= <- <-]; by left].
    destruct (candidates resp) as [|c ?]; [intros [= <- <-]; by left|].
    destruct (content_parts c) as [|p ?]; [intros [= <- <-]; by left|].
    destruct (function_call p) as [fc|]; [|intros [= <- <-]; by left].
    destruct (hd fc q) as [r|e] eqn:Eh; [|intros [= <- <-]; by left].
    intros [= <- <-].
    destruct r; simpl; try by left.
    right. exists fc, kvs. split; [done|].
    rewrite !lookup_insert_ne by done. apply lookup_insert_eq. }
  destruct (try_body n chat hd q (default_record n)) as [fd [u|e]] eqn:E; simpl;
    intros [= <-].
  - by eapply Hbody.
  - rewrite lookup_insert_ne by done. by eapply Hbody.
Qed.

(** The success path writes an object with the keys [nodes] and [edges];
    each is an array when the callback's dictionary binds the graph fields
    to lists. *)
Lemma store_result_graph (n : string) (kvs : list (string * pyval))
    (fd : gmap string pyval) (nodes edges : list pyval) :
  dict_get kvs "graph_nodes" PNone = PList nodes →
  dict_get kvs "graph_edges" PNone = PList edges →
  ∃ s, store_result n (PDict kvs) fd !! graph_key n = Some (PStr s) ∧ encodes_graph s.
Proof.
  intros Hn He. eexists. split.
  - unfold store_result. apply lookup_insert_eq.
  - exists nodes, edges. by rewrite Hn, He.
Qed.

End Run_facts.

Section Row_facts.

Context (protos_FunctionResponse : string → list (string * pyval) → res chat_message)
        (as_completed : list (res (gmap string pyval)) → list (res (gmap string pyval))).

Implicit Types
  (agents : list (string * (GenerativeModel * (FunctionCall → pyval → res pyval)))).

Local Abbreviation process :=
  (process_single_row_threaded protos_FunctionResponse as_completed).
Local Abbreviation merged h row agents :=
  (foldl merge_future ∅
     (as_completed (submit_all protos_FunctionResponse
                      (default PNone (deref h row !! "Answer")) agents))).

(** The enriched row is the merged records laid over a copy of the row. *)
Lemma enriched_row_eq h (row : loc) agents h' (combined : loc) :
  process h row agents = (h', combined) →
  combined = length h ∧ h' = h ++ [merged h row agents ∪ deref h row] ∧
  deref h' combined = merged h row agents ∪ deref h row.
Proof.
  rewrite process_single_row_threaded_eq. intros [= <- <-].
  by rewrite deref_alloc.
Qed.

Lemma submitted_future agents (f : res (gmap string pyval)) q :
  (∀ fs, as_completed fs ≡ₚ fs) →
  f ∈ as_completed (submit_all protos_FunctionResponse q agents) →
  ∃ n mdl hd, (n, (mdl, hd)) ∈ agents ∧
              f = run_agent_threaded protos_FunctionResponse n mdl hd q.
Proof.
  intros Hp. rewrite (Hp _). unfold submit_all.
  intros ([n [mdl hd]] & -> & Hin)%list_elem_of_fmap. eauto.
Qed.

Lemma future_submitted agents n mdl hd q :
  (∀ fs, as_completed fs ≡ₚ fs) → (n, (mdl, hd)) ∈ agents →
  run_agent_threaded protos_FunctionResponse n mdl hd q
  ∈ as_completed (submit_all protos_FunctionResponse q agents).
Proof.
  intros Hp Hin. rewrite (Hp _). unfold submit_all.
  apply list_elem_of_fmap. by exists (n, (mdl, hd)).
Qed.

(** A field that no active agent generates is not in the merged records. *)
Lemma merged_not_generated h (row : loc) agents (k : string) :
  (∀ fs, as_completed fs ≡ₚ fs) →
  (∀ name, name ∈ agents.*1 → k ∉ record_keys name) →
  merged h row agents !! k = None.
Proof.
  intros Hp Hk. apply not_elem_of_dom. intros Hin.
  apply merge_dom_sub in Hin as [Hin|(f & Hf & Hkf)]; [set_solver|].
  apply submitted_future in Hf as (n & mdl & hd & Ha & ->); [|done].
  apply (Hk n).
  - apply list_elem_of_fmap. by exists (n, (mdl, hd)).
  - revert Hkf. apply future_dom_run.
Qed.

End Row_facts.

Section Batch_facts.

Context (json_loads : string → res pyval) (py_str : pyval → string)
        (genai_GenerativeModel :
           string → list tool_function → option string → GenerativeModel)
        (protos_FunctionResponse : string → list (string * pyval) → res chat_message)
        (as_completed : list (res (gmap string pyval)) → list (res (gmap string pyval))).

Local Abbreviation agents := (active_agents json_loads py_str genai_GenerativeModel).
Local Abbreviation process :=
  (process_single_row_threaded protos_FunctionResponse as_completed).
Local Abbreviation loop :=
  (iterrows json_loads py_str genai_GenerativeModel protos_FunctionResponse as_completed).
Local Abbreviation enriched := (enrich protos_FunctionResponse as_completed agents).

(** A property that every enriched row has with respect to its input row
    and position holds for each saved row of the loop, in input order:
    rows enriched earlier are not touched by later iterations. *)
Lemma iterrows_each (P : Z → gmap string pyval → gmap string pyval → Prop) :
  (∀ (h : list (gmap string pyval)) (index : Z) (r : gmap string pyval) h' combined,
      process (h ++ [match r !! "id" with
                     | Some _ => r
                     | None => <["id" := PInt index]> r
                     end]) (length h) agents = (h', combined) →
      P index r (deref h' combined)) →
  ∀ (rows : list (gmap string pyval)) (h : list (gmap string pyval)) (index : Z)
    (final_rows : list loc),
    ∃ ext locs,
      loop h index rows final_rows = (h ++ ext, final_rows ++ locs) ∧
      length locs = length rows ∧
      ∀ (i : nat) r, rows !! i = Some r →
        ∃ l, locs !! i = Some l ∧ P (index + Z.of_nat i) r (deref (h ++ ext) l).
Proof.
  intros HP. induction rows as [|r rest IH]; intros h index final_rows.
  - exists [], []. rewrite !app_nil_r. repeat split. intros i r Hi.
    by rewrite lookup_nil in Hi.
  - cbn [iterrows]. unfold alloc at 1. cbn beta iota zeta.
    set (row_dict := match r !! "id" with
                     | Some _ => r
                     | None => <["id" := PInt index]> r
                     end).
    destruct (process (h ++ [row_dict]) (length h) agents) as [h1 combined] eqn:Hproc.
    pose proof (HP h index r h1 combined Hproc) as HPr.
    apply enriched_row_eq in Hproc as (Hc & Hh1 & _).
    destruct (IH h1 (index + 1) (final_rows ++ [combined])) as (ext & locs & Hloop & Hlen & Hall).
    exists ([row_dict; foldl merge_future ∅
               (as_completed
                  (submit_all protos_FunctionResponse
                     (default PNone (deref (h ++ [row_dict]) (length h) !! "Answer"))
                     agents)) ∪ deref (h ++ [row_dict]) (length h)] ++ ext),
      (combined :: locs).
    assert (Hheap : h ++ [row_dict;
                     foldl merge_future ∅
                       (as_completed
                          (submit_all protos_FunctionResponse
                             (default PNone
                                (deref (h ++ [row_dict]) (length h) !! "Answer"))
                             agents)) ∪ deref (h ++ [row_dict]) (length h)] ++ ext
                    = h1 ++ ext).
    { rewrite Hh1. by rewrite <- !(assoc_L (++)). }
    rewrite Hheap. split; [|split].
    + rewrite Hloop. by rewrite <- (assoc_L (++)).
    + simpl. by rewrite Hlen.
    + intros [|i] r' Hi; simpl in Hi.
      * injection Hi as <-. exists combined. split; [done|].
        rewrite Z.add_0_r.
        assert (Hlt : (combined < length h1)%nat).
        { rewrite Hc, Hh1, !length_app. simpl. lia. }
        unfold deref in *. by rewrite lookup_app_l.
      * destruct (Hall i r' Hi) as (l & Hl & HPl). exists l. split; [done|].
        by replace (index + Z.of_nat (S i)) with (index + 1 + Z.of_nat i) by lia.
Qed.

(** Whatever the store, the orchestrator's result for a row object is the
    enriched row of the dictionary that the object holds. *)
Lemma process_enrich (h : list (gmap string pyval)) (row : loc)
    (active_agents_dict :
       list (string * (GenerativeModel * (FunctionCall → pyval → res pyval))))
    (h' : list (gmap string pyval)) (combined : loc) :
  process_single_row_threaded protos_FunctionResponse as_completed h row active_agents_dict
  = (h', combined) →
  deref h' combined
  = enrich protos_FunctionResponse as_completed active_agents_dict (deref h row).
Proof.
  intros Hproc. apply enriched_row_eq in Hproc as (_ & _ & ->).
  unfold enrich. rewrite process_single_row_threaded_eq.
  change ([deref h row] ++ ?x) with (deref h row :: x).
  reflexivity.
Qed.

(** The batch saves, for each row of the frame and in order, the enriched
    row of that row, completed with its position as [id] when it has no
    [id]. *)
Lemma run_parallel_system_threaded_enriched
    (pd_read_csv : string → res (list (gmap string pyval))) (csv_path : string) :
  ∃ rows,
    run_parallel_system_threaded json_loads py_str genai_GenerativeModel
      protos_FunctionResponse as_completed pd_read_csv csv_path
    = Saved "FINAL_threaded_report_with_graphs.csv" rows ∧
    length rows = length (match pd_read_csv csv_path with
                          | Ret df => df
                          | Raise _ => dummy_data
                          end) ∧
    ∀ (i : nat) r,
      match pd_read_csv csv_path with
      | Ret df => df
      | Raise _ => dummy_data
      end !! i = Some r →
      rows !! i = Some (enriched match r !! "id" with
                                 | Some _ => r
                                 | None => <["id" := PInt (Z.of_nat i)]> r
                                 end).
Proof.
  set (df := match pd_read_csv csv_path with Ret df => df | Raise _ => dummy_data end).
  destruct (iterrows_each
              (λ index r out,
                 out = enriched match r !! "id" with
                                | Some _ => r
                                | None => <["id" := PInt index]> r
                                end)) with
    (rows := df) (h := @nil (gmap string pyval)) (index := 0) (final_rows := @nil loc)
    as (ext & locs & Hloop & Hlen & Hall).
  { intros h index r h' combined Hproc.
    rewrite (process_enrich _ _ _ _ _ Hproc). by rewrite deref_alloc. }
  unfold run_parallel_system_threaded. fold df. simpl in Hloop. rewrite Hloop.
  eexists. split; [reflexivity|]. split; [by rewrite length_fmap|].
  intros i r Hi. destruct (Hall i r Hi) as (l & Hl & HP).
  rewrite list_lookup_fmap, Hl. simpl. rewrite Z.add_0_l in HP. by rewrite <- HP.
Qed.

End Batch_facts.

(** * The claims *)

(** ** Judgment capability *)

(** C5, as the code has it.  For every criterion name, description and
    content and every behaviour of the hosted model and of [json.loads],
    [run_judgment_llm] returns a value and raises nothing.  When the
    request raises, when reading the reply raises, or when the reply is
    not JSON, the value is the dictionary with score 0, an explanation
    naming the exception, and empty node and edge lists.  A reply that
    parses as JSON is returned as parsed, whatever its shape. *)
Theorem run_judgment_llm_never_raises
    (json_loads : string → res pyval) (py_str : pyval → string)
    (genai_GenerativeModel : string → list tool_function → option string → GenerativeModel)
    (criteria_name criteria_desc : string) (content : pyval) :
  (∃ v, run_judgment_llm json_loads py_str genai_GenerativeModel
          criteria_name criteria_desc content = Ret v) ∧
  (∀ e, judge_failure json_loads (genai_GenerativeModel "gemini-2.5-flash" [] None)
          (judge_prompt py_str criteria_name criteria_desc content) e →
        run_judgment_llm json_loads py_str genai_GenerativeModel
          criteria_name criteria_desc content
        = Ret (PDict [("score", PInt 0);
                      ("explanation", PStr ("Judge crashed: " +:+ exn_str e));
                      ("graph_nodes", PList []);
                      ("graph_edges", PList [])])) ∧
  (∀ response response_text v,
      generate_content (genai_GenerativeModel "gemini-2.5-flash" [] None)
        (judge_prompt py_str criteria_name criteria_desc content) = Ret response →
      text response = Ret response_text →
      json_loads response_text = Ret v →
      run_judgment_llm json_loads py_str genai_GenerativeModel
        criteria_name criteria_desc content = Ret v).
Proof.
  split; [|split].
  - apply run_judgment_llm_total.
  - intros e He. by apply run_judgment_llm_failure.
  - intros response response_text v Hg Ht Hl. unfold run_judgment_llm.
    rewrite Hg. simpl. rewrite Ht. simpl. by rewrite Hl.
Qed.

Lemma run_judgment_llm_never_raises_witness :
  let genai := scripted_genai (Ret {| text := Ret "Sorry, I cannot grade this." |})
                 (Raise (Exception "unused")) in
  let e := Exception "Expecting value: line 1 column 1 (char 0)" in
  judge_failure (loads_known []) (genai "gemini-2.5-flash" [] None)
    (judge_prompt str_scalar "Accuracy" "Factually accurate, citing correct numbers."
       (PStr "")) e ∧
  run_judgment_llm (loads_known []) str_scalar genai
    "Accuracy" "Factually accurate, citing correct numbers." (PStr "")
  = Ret (PDict [("score", PInt 0);
                ("explanation",
                 PStr "Judge crashed: Expecting value: line 1 column 1 (char 0)");
                ("graph_nodes", PList []);
                ("graph_edges", PList [])]).
Proof.
  intros genai e.
  assert (He : judge_failure (loads_known []) (genai "gemini-2.5-flash" [] None)
                 (judge_prompt str_scalar "Accuracy"
                    "Factually accurate, citing correct numbers." (PStr "")) e).
  { eapply loads_raises; reflexivity. }
  split; [exact He|].
  exact (proj1 (proj2 (run_judgment_llm_never_raises (loads_known []) str_scalar genai
                         "Accuracy" "Factually accurate, citing correct numbers."
                         (PStr ""))) e He).
Defined.

(** C5 as stated fails for malformed output that is still JSON: the reply
    is an object whose score is the string high and which has no other
    field, and the judge returns it unchanged, not the score-0 dictionary. *)
Lemma malformed_reply_is_returned_unchanged :
  let reply := PDict [("score", PStr "high")] in
  let genai := scripted_genai (text_reply reply) (Raise (Exception "unused")) in
  run_judgment_llm (loads_known [reply]) str_scalar genai
    "Accuracy" "Factually accurate, citing correct numbers."
    (PStr "The sun is cold and blue.")
  = Ret (PDict [("score", PStr "high")]) ∧
  dict_find "score" [("score", PStr "high")] ≠ Some (PInt 0) ∧
  dict_find "explanation" [("score", PStr "high")] = None.
Proof. split; [reflexivity|]. split; [discriminate|reflexivity]. Qed.

(** ** Tool callback *)

(** C6, as the code has it.  The callback judges the [text_content]
    argument of the tool call when the call carries one and the context
    text otherwise; whenever the judge returns a dictionary, the callback
    returns the record with exactly the fields [status] (the string
    success), [judgment_score], [judgment_reason], [graph_nodes] and
    [graph_edges], read from that dictionary. *)
Theorem handle_tool_call_record
    (json_loads : string → res pyval) (py_str : pyval → string)
    (genai_GenerativeModel : string → list tool_function → option string → GenerativeModel)
    (agent_name criteria_desc : string) (tool_call : FunctionCall) (context_text : pyval) :
  let record kvs :=
    PDict [("status", PStr "success");
           ("judgment_score", dict_get kvs "score" PNone);
           ("judgment_reason", dict_get kvs "explanation" PNone);
           ("graph_nodes", dict_get kvs "graph_nodes" (PList []));
           ("graph_edges", dict_get kvs "graph_edges" (PList []))] in
  (∀ v kvs,
      dict_find "text_content" (fc_args tool_call) = Some v →
      run_judgment_llm json_loads py_str genai_GenerativeModel agent_name criteria_desc v
      = Ret (PDict kvs) →
      handle_tool_call json_loads py_str genai_GenerativeModel agent_name criteria_desc
        tool_call context_text = Ret (record kvs)) ∧
  (∀ kvs,
      dict_find "text_content" (fc_args tool_call) = None →
      run_judgment_llm json_loads py_str genai_GenerativeModel agent_name criteria_desc
        context_text = Ret (PDict kvs) →
      handle_tool_call json_loads py_str genai_GenerativeModel agent_name criteria_desc
        tool_call context_text = Ret (record kvs)).
Proof.
  intros record. split.
  - intros v kvs Hv Hj. apply handle_tool_call_dict.
    unfold callback_input. by rewrite Hv.
  - intros kvs Hv Hj. apply handle_tool_call_dict.
    unfold callback_input. by rewrite Hv.
Qed.

Lemma handle_tool_call_record_witness :
  let reply := verdict (PInt 1) "ok" in
  let genai := scripted_genai (text_reply reply) (Raise (Exception "unused")) in
  dict_find "text_content" (fc_args sample_call) = Some (PStr "The sun is cold and blue.") ∧
  run_judgment_llm (loads_known [reply]) str_scalar genai "Accuracy"
    "Factually accurate, citing correct numbers." (PStr "The sun is cold and blue.")
  = Ret reply ∧
  handle_tool_call (loads_known [reply]) str_scalar genai "Accuracy"
    "Factually accurate, citing correct numbers." sample_call (PStr "unused context")
  = Ret (PDict [("status", PStr "success");
                ("judgment_score", PInt 1);
                ("judgment_reason", PStr "ok");
                ("graph_nodes", PList [PDict [("id", PStr "sun"); ("type", PStr "claim")]]);
                ("graph_edges", PList [])]).
Proof.
  intros reply genai.
  assert (Hv : dict_find "text_content" (fc_args sample_call)
               = Some (PStr "The sun is cold and blue.")) by reflexivity.
  assert (Hj : run_judgment_llm (loads_known [reply]) str_scalar genai "Accuracy"
                 "Factually accurate, citing correct numbers."
                 (PStr "The sun is cold and blue.") = Ret reply) by reflexivity.
  split; [exact Hv|]. split; [exact Hj|].
  exact (proj1 (handle_tool_call_record (loads_known [reply]) str_scalar genai "Accuracy"
                  "Factually accurate, citing correct numbers." sample_call
                  (PStr "unused context")) _ _ Hv Hj).
Defined.

(** C6 as stated fails: when the model answers the judge's request with a
    JSON array, [json.loads] returns a list, and the callback raises an
    [AttributeError] instead of returning a record. *)
Lemma handle_tool_call_raises_on_array :
  handle_tool_call (loads_known [PList []]) str_scalar
    (scripted_genai (text_reply (PList [])) (Raise (Exception "unused")))
    "Accuracy" "Factually accurate, citing correct numbers."
    sample_call (PStr "The sun is cold and blue.")
  = Raise (Exception "'list' object has no attribute 'get'").
Proof. reflexivity. Qed.

(** C10. Every record the callback returns has [status] equal to the
    string success.  In particular, when the judge's request fails the
    callback still returns such a record, with score 0 and the crash
    message as reason, and that record differs from the one returned for a
    real score-0 verdict with an empty graph only in [judgment_reason]. *)
Theorem handle_tool_call_status_success
    (json_loads : string → res pyval) (py_str : pyval → string)
    (genai_GenerativeModel : string → list tool_function → option string → GenerativeModel)
    (agent_name criteria_desc : string) (tool_call : FunctionCall) (context_text : pyval) :
  let callback :=
    handle_tool_call json_loads py_str genai_GenerativeModel agent_name criteria_desc
      tool_call context_text in
  let record reason :=
    PDict [("status", PStr "success");
           ("judgment_score", PInt 0);
           ("judgment_reason", PStr reason);
           ("graph_nodes", PList []);
           ("graph_edges", PList [])] in
  (∀ r, callback = Ret r →
        ∃ kvs, r = PDict kvs ∧ dict_find "status" kvs = Some (PStr "success")) ∧
  (∀ e, judge_failure json_loads (genai_GenerativeModel "gemini-2.5-flash" [] None)
          (judge_prompt py_str agent_name criteria_desc
             (callback_input tool_call context_text)) e →
        callback = Ret (record ("Judge crashed: " +:+ exn_str e))) ∧
  (∀ explanation,
      run_judgment_llm json_loads py_str genai_GenerativeModel agent_name criteria_desc
        (callback_input tool_call context_text)
      = Ret (PDict [("score", PInt 0); ("explanation", PStr explanation);
                    ("graph_nodes", PList []); ("graph_edges", PList [])]) →
      callback = Ret (record explanation)).
Proof.
  intros callback record. repeat split.
  - intros r Hr. apply handle_tool_call_inv in Hr as (kvs & _ & ->). eauto.
  - intros e He. subst callback.
    rewrite (handle_tool_call_dict _ _ _ _ _ _ _ _ (run_judgment_llm_failure _ _ _ _ _ _ _ He)).
    reflexivity.
  - intros x Hx. subst callback. by rewrite (handle_tool_call_dict _ _ _ _ _ _ _ _ Hx).
Qed.

Lemma handle_tool_call_status_success_witness :
  let genai := scripted_genai (Raise (Exception "503 Service Unavailable"))
                 (Raise (Exception "unused")) in
  judge_failure (loads_known []) (genai "gemini-2.5-flash" [] None)
    (judge_prompt str_scalar "Empathy" "Tone is warm, understanding, and human-like."
       (callback_input sample_call (PStr "unused context")))
    (Exception "503 Service Unavailable") ∧
  handle_tool_call (loads_known []) str_scalar genai "Empathy"
    "Tone is warm, understanding, and human-like." sample_call (PStr "unused context")
  = Ret (PDict [("status", PStr "success");
                ("judgment_score", PInt 0);
                ("judgment_reason", PStr "Judge crashed: 503 Service Unavailable");
                ("graph_nodes", PList []);
                ("graph_edges", PList [])]).
Proof.
  intros genai.
  assert (He : judge_failure (loads_known []) (genai "gemini-2.5-flash" [] None)
                 (judge_prompt str_scalar "Empathy"
                    "Tone is warm, understanding, and human-like."
                    (callback_input sample_call (PStr "unused context")))
                 (Exception "503 Service Unavailable")).
  { apply request_raises. reflexivity. }
  split; [exact He|].
  exact (proj1 (proj2 (handle_tool_call_status_success (loads_known []) str_scalar genai
                         "Empathy" "Tone is warm, understanding, and human-like."
                         sample_call (PStr "unused context"))) _ He).
Defined.

(** ** Per-agent execution protocol *)

(** C1 fails on the code's failure path.  When the forced reply carries no
    tool call (a protocol violation), the worker returns its initial
    record, and the graph field of that record is the two-character text
    of an empty JSON array, not the text of an object with the keys
    [nodes] and [edges]. *)
Theorem protocol_violation_graph_is_array
    (protos_FunctionResponse : string → list (string * pyval) → res chat_message)
    (agent_name : string) (agent_model : GenerativeModel)
    (handle : FunctionCall → pyval → res pyval) (user_query : pyval)
    (chat : ChatSession) (response : ChatResponse) :
  start_chat agent_model = Ret chat →
  send_message chat (UserText user_query) forced_mode = Ret response →
  no_tool_call response = true →
  ∃ d, run_agent_threaded protos_FunctionResponse agent_name agent_model handle user_query
       = Ret d ∧
       d !! graph_key agent_name = Some (PStr "[]") ∧
       ¬ encodes_graph "[]".
Proof.
  intros Hc Hs Hv. apply first_tool_call_none in Hv.
  exists (default_record agent_name). split; [|split].
  - unfold run_agent_threaded. rewrite Hc. simpl.
    by rewrite (try_block_violation _ _ _ _ _ _ _ Hs Hv).
  - unfold default_record. apply lookup_insert_eq.
  - intros (nodes & edges & H). discriminate H.
Qed.

Lemma protocol_violation_graph_is_array_witness :
  let chat := scripted_chat (Ret no_candidates) (Ret no_candidates) in
  let mdl := scripted_model (Raise (Exception "unused")) (Ret chat) in
  ∃ d, run_agent_threaded build_response "Accuracy" mdl
         (handle_tool_call (loads_known []) str_scalar
            (scripted_genai (Raise (Exception "unused")) (Ret chat))
            "Accuracy" "Factually accurate, citing correct numbers.")
         (PStr "The sun is cold and blue.") = Ret d ∧
       d !! graph_key "Accuracy" = Some (PStr "[]") ∧
       ¬ encodes_graph "[]".
Proof.
  intros chat mdl.
  apply (protocol_violation_graph_is_array build_response "Accuracy" mdl _
           (PStr "The sun is cold and blue.") chat no_candidates);
    reflexivity.
Defined.

(** C2, as the code has it.  When the callback's dictionary has been
    copied into the record and building or sending the follow-up
    function-result message then raises, the returned record keeps the
    captured grade and graph, and its reason is replaced by the text
    Error: followed by the exception's message. *)
Theorem followup_failure_keeps_grade_and_graph
    (protos_FunctionResponse : string → list (string * pyval) → res chat_message)
    (agent_name : string) (agent_model : GenerativeModel)
    (handle : FunctionCall → pyval → res pyval) (user_query : pyval)
    (chat : ChatSession) (response : ChatResponse) (fc : FunctionCall)
    (kvs : list (string * pyval)) (e : exn) :
  start_chat agent_model = Ret chat →
  send_message chat (UserText user_query) forced_mode = Ret response →
  first_tool_call response = Some fc →
  handle fc user_query = Ret (PDict kvs) →
  (tool_resp ← protos_FunctionResponse (fc_name fc) [("result", PDict kvs)];
   send_message chat tool_resp auto_mode) = Raise e →
  ∃ d, run_agent_threaded protos_FunctionResponse agent_name agent_model handle user_query
       = Ret d ∧
       d !! grade_key agent_name = Some (dict_get kvs "judgment_score" (PInt 0)) ∧
       d !! graph_key agent_name
       = Some (PStr (json_dumps
                       (PDict [("nodes", dict_get kvs "graph_nodes" PNone);
                               ("edges", dict_get kvs "graph_edges" PNone)]))) ∧
       d !! reason_key agent_name = Some (PStr ("Error: " +:+ exn_str e)).
Proof.
  intros Hc Hs Hf Hh Hfail.
  pose proof (grade_ne_reason agent_name) as Hgr.
  pose proof (grade_ne_graph agent_name) as Hgg.
  pose proof (reason_ne_graph agent_name) as Hrg.
  eexists. split.
  - unfold run_agent_threaded. rewrite Hc. simpl.
    rewrite (try_block_tool_call _ _ _ _ _ _ _ _ Hs Hf), Hh.
    assert (Hout : (tool_resp ← protos_FunctionResponse (fc_name fc) [("result", PDict kvs)];
                    _ ← send_message chat tool_resp auto_mode; Ret tt)
                   = (Raise e : res unit)).
    { destruct (protos_FunctionResponse _ _) as [tr|e']; simpl in *; [|congruence].
      destruct (send_message chat tr auto_mode); simpl in *; congruence. }
    rewrite Hout. reflexivity.
  - simpl. repeat split.
    + rewrite !lookup_insert_ne by done. apply lookup_insert_eq.
    + rewrite lookup_insert_ne by done. apply lookup_insert_eq.
    + apply lookup_insert_eq.
Qed.

Lemma followup_failure_keeps_grade_and_graph_witness :
  let reply := verdict (PInt 1) "ok" in
  let chat := scripted_chat (Ret (tool_call_reply sample_call))
                (Raise (Exception "429 Resource exhausted")) in
  let genai := scripted_genai (text_reply reply) (Ret chat) in
  ∃ d, run_agent_threaded build_response "Accuracy" (genai "gemini-2.5-flash" [] None)
         (handle_tool_call (loads_known [reply]) str_scalar genai
            "Accuracy" "Factually accurate, citing correct numbers.")
         (PStr "The sun is cold and blue.") = Ret d ∧
       d !! grade_key "Accuracy" = Some (PInt 1) ∧
       d !! graph_key "Accuracy"
       = Some (PStr (json_dumps
                       (PDict [("nodes", PList [PDict [("id", PStr "sun");
                                                       ("type", PStr "claim")]]);
                               ("edges", PList [])]))) ∧
       d !! reason_key "Accuracy" = Some (PStr "Error: 429 Resource exhausted").
Proof.
  intros reply chat genai.
  apply (followup_failure_keeps_grade_and_graph build_response "Accuracy"
           (genai "gemini-2.5-flash" [] None) _ (PStr "The sun is cold and blue.")
           chat (tool_call_reply sample_call) sample_call
           [("status", PStr "success");
            ("judgment_score", PInt 1);
            ("judgment_reason", PStr "ok");
            ("graph_nodes", PList [PDict [("id", PStr "sun"); ("type", PStr "claim")]]);
            ("graph_edges", PList [])]
           (Exception "429 Resource exhausted"));
    reflexivity.
Defined.

(** C2 as stated fails: the callback captured the reason ok, the follow-up
    message raised, and the returned record carries the error text as its
    reason instead. *)
Lemma followup_failure_overwrites_reason :
  let reply := verdict (PInt 1) "ok" in
  let chat := scripted_chat (Ret (tool_call_reply sample_call))
                (Raise (Exception "429 Resource exhausted")) in
  let genai := scripted_genai (text_reply reply) (Ret chat) in
  let handle := handle_tool_call (loads_known [reply]) str_scalar genai
                  "Accuracy" "Factually accurate, citing correct numbers." in
  (∃ kvs, handle sample_call (PStr "The sun is cold and blue.") = Ret (PDict kvs) ∧
          dict_find "judgment_reason" kvs = Some (PStr "ok")) ∧
  (∃ d, run_agent_threaded build_response "Accuracy" (genai "gemini-2.5-flash" [] None)
          handle (PStr "The sun is cold and blue.") = Ret d ∧
        d !! reason_key "Accuracy" = Some (PStr "Error: 429 Resource exhausted") ∧
        d !! reason_key "Accuracy" ≠ Some (PStr "ok")).
Proof.
  intros reply chat genai handle. split.
  - eexists. split; reflexivity.
  - eexists. split; [reflexivity|]. split; [reflexivity|]. discriminate.
Qed.

(** ** Row orchestrator *)

(** C8. For every row and every active agent whose worker reached its own
    recovery (the conversation was opened, so a record is returned on
    success, on a protocol violation and on every exception caught in the
    worker), the enriched row contains all three of the agent's fields. *)
Theorem enriched_row_has_full_triple
    (protos_FunctionResponse : string → list (string * pyval) → res chat_message)
    (as_completed : list (res (gmap string pyval)) → list (res (gmap string pyval)))
    (h : list (gmap string pyval)) (row : loc)
    (active_agents_dict :
       list (string * (GenerativeModel * (FunctionCall → pyval → res pyval))))
    (agent_name : string) (agent_model : GenerativeModel)
    (handle : FunctionCall → pyval → res pyval) (chat : ChatSession)
    (h' : list (gmap string pyval)) (combined : loc) :
  (∀ fs, as_completed fs ≡ₚ fs) →
  (agent_name, (agent_model, handle)) ∈ active_agents_dict →
  start_chat agent_model = Ret chat →
  process_single_row_threaded protos_FunctionResponse as_completed h row active_agents_dict
  = (h', combined) →
  is_Some (deref h' combined !! grade_key agent_name) ∧
  is_Some (deref h' combined !! reason_key agent_name) ∧
  is_Some (deref h' combined !! graph_key agent_name).
Proof.
  intros Hp Hin Hc Hrun.
  apply enriched_row_eq in Hrun as (_ & _ & ->).
  set (q := default PNone (deref h row !! "Answer")).
  destruct (run_agent_returns protos_FunctionResponse agent_name agent_model handle q chat Hc)
    as [d Hd].
  pose proof (run_agent_dom _ _ _ _ _ _ Hd) as Hdom.
  pose proof (future_submitted protos_FunctionResponse as_completed _ _ _ _ q Hp Hin) as Hf.
  rewrite Hd in Hf. apply (merge_dom_sup _ ∅) in Hf. rewrite Hdom in Hf.
  assert (Hk : ∀ k, k ∈ record_keys agent_name →
                    is_Some ((foldl merge_future ∅
                                (as_completed (submit_all protos_FunctionResponse q
                                                 active_agents_dict))
                              ∪ deref h row) !! k)).
  { intros k Hk. apply elem_of_dom. rewrite dom_union_L. set_solver. }
  unfold record_keys in Hk. repeat split; apply Hk; set_solver.
Qed.

Lemma enriched_row_has_full_triple_witness :
  let chat := scripted_chat (Ret no_candidates) (Ret no_candidates) in
  let genai := scripted_genai (Raise (Exception "unused")) (Ret chat) in
  let out := process_single_row_threaded build_response (λ fs, fs) [sample_row] 0%nat
               (active_agents (loads_known []) str_scalar genai) in
  is_Some (deref out.1 out.2 !! grade_key "Empathy") ∧
  is_Some (deref out.1 out.2 !! reason_key "Empathy") ∧
  is_Some (deref out.1 out.2 !! graph_key "Empathy").
Proof.
  intros chat genai out.
  apply (enriched_row_has_full_triple build_response (λ fs, fs) [sample_row] 0%nat
           (active_agents (loads_known []) str_scalar genai) "Empathy"
           (genai "gemini-2.5-flash" [check_empathy]
              (Some (system_instruction "Empathy" check_empathy)))
           (handle_tool_call (loads_known []) str_scalar genai "Empathy"
              "Tone is warm, understanding, and human-like.")
           chat out.1 out.2).
  - intros fs. reflexivity.
  - unfold active_agents, agent_configs. simpl. do 2 right. left.
  - reflexivity.
  - reflexivity.
Defined.

(** C4, as the code has it.  The grade is stored without validation: it is
    0 on every path that stores no callback result, and otherwise the score
    the judge returned.  So for every row and every active agent built by
    [create_agent] whose worker returns a record, the grade field of the
    enriched row is the integer 0 or 1 provided every dictionary the judge
    returns for this agent carries a score of 0 or 1. *)
Theorem enriched_grade_is_binary
    (json_loads : string → res pyval) (py_str : pyval → string)
    (genai_GenerativeModel : string → list tool_function → option string → GenerativeModel)
    (protos_FunctionResponse : string → list (string * pyval) → res chat_message)
    (as_completed : list (res (gmap string pyval)) → list (res (gmap string pyval)))
    (h : list (gmap string pyval)) (row : loc)
    (active_agents_dict :
       list (string * (GenerativeModel * (FunctionCall → pyval → res pyval))))
    (agent_name : string) (tool : tool_function) (criteria_desc : string)
    (chat : ChatSession) (h' : list (gmap string pyval)) (combined : loc) :
  (∀ fs, as_completed fs ≡ₚ fs) →
  NoDup active_agents_dict.*1 →
  (agent_name,
   create_agent json_loads py_str genai_GenerativeModel agent_name tool criteria_desc)
    ∈ active_agents_dict →
  start_chat
    (create_agent json_loads py_str genai_GenerativeModel agent_name tool criteria_desc).1
  = Ret chat →
  (∀ content kvs,
      run_judgment_llm json_loads py_str genai_GenerativeModel agent_name criteria_desc
        content = Ret (PDict kvs) →
      dict_find "score" kvs = Some (PInt 0) ∨ dict_find "score" kvs = Some (PInt 1)) →
  process_single_row_threaded protos_FunctionResponse as_completed h row active_agents_dict
  = (h', combined) →
  deref h' combined !! grade_key agent_name = Some (PInt 0) ∨
  deref h' combined !! grade_key agent_name = Some (PInt 1).
Proof.
  intros Hp Hnd Hin Hc Hscore Hrun.
  apply enriched_row_eq in Hrun as (_ & _ & ->).
  set (q := default PNone (deref h row !! "Answer")).
  unfold create_agent in Hin, Hc. simpl in Hc.
  destruct (run_agent_returns protos_FunctionResponse agent_name _
              (handle_tool_call json_loads py_str genai_GenerativeModel
                 agent_name criteria_desc) q chat Hc) as [d Hd].
  pose proof (run_agent_dom _ _ _ _ _ _ Hd) as Hdom.
  assert (Hk : grade_key agent_name ∈ dom d).
  { rewrite Hdom. unfold record_keys. set_solver. }
  pose proof (merge_lookup _ as_completed q _ _ _ _ _ _ Hp Hnd Hin Hd Hk) as Hm.
  assert (Hd01 : d !! grade_key agent_name = Some (PInt 0) ∨
                 d !! grade_key agent_name = Some (PInt 1)).
  { destruct (run_agent_grade _ _ _ _ _ _ Hd) as [H0|(fc & kvs & Hh & Hg)]; [by left|].
    apply handle_tool_call_inv in Hh as (kvs' & Hj & [= ->]).
    rewrite Hg. unfold dict_get at 1. simpl.
    destruct (Hscore _ _ Hj) as [Hs|Hs]; unfold dict_get; rewrite Hs; eauto. }
  destruct Hd01 as [H|H]; [left|right];
    (apply lookup_union_Some_l; by rewrite Hm).
Qed.

Lemma enriched_grade_is_binary_witness :
  let reply := verdict (PInt 1) "ok" in
  let chat := scripted_chat (Ret (tool_call_reply sample_call)) (Ret no_candidates) in
  let genai := scripted_genai (text_reply reply) (Ret chat) in
  let out := process_single_row_threaded build_response (λ fs, fs) [sample_row] 0%nat
               (active_agents (loads_known [reply]) str_scalar genai) in
  deref out.1 out.2 !! grade_key "Accuracy" = Some (PInt 0) ∨
  deref out.1 out.2 !! grade_key "Accuracy" = Some (PInt 1).
Proof.
  intros reply chat genai out.
  apply (enriched_grade_is_binary (loads_known [reply]) str_scalar genai build_response
           (λ fs, fs) [sample_row] 0%nat
           (active_agents (loads_known [reply]) str_scalar genai)
           "Accuracy" check_accuracy "Factually accurate, citing correct numbers."
           chat out.1 out.2).
  - intros fs. reflexivity.
  - unfold active_agents, agent_configs. simpl.
    repeat (apply NoDup_cons_2; [set_solver|]). apply NoDup_nil_2.
  - unfold active_agents, agent_configs. simpl. left.
  - reflexivity.
  - intros content kvs. unfold run_judgment_llm. simpl.
    intros [= <-]. right. reflexivity.
  - reflexivity.
Defined.

(** C4 as stated fails: the judge's reply carries the score 5, and the
    grade field of the enriched row is 5. *)
Lemma enriched_grade_follows_score :
  let reply := verdict (PInt 5) "very good" in
  let chat := scripted_chat (Ret (tool_call_reply sample_call)) (Ret no_candidates) in
  let genai := scripted_genai (text_reply reply) (Ret chat) in
  let out := process_single_row_threaded build_response (λ fs, fs) [sample_row] 0%nat
               (active_agents (loads_known [reply]) str_scalar genai) in
  deref out.1 out.2 !! "Accuracy_grade" = Some (PInt 5).
Proof. vm_compute. reflexivity. Qed.

(** C7, as the code has it.  The orchestrator leaves the input row object
    as it was and builds the enriched row in a new object.  Every field
    name that is not one of the three generated names of an active agent
    has in the enriched row exactly the value (or absence) it has in the
    input row; the identifier [id] and the subject text [Answer] are never
    generated names, so they are always preserved. *)
Theorem row_fields_preserved
    (protos_FunctionResponse : string → list (string * pyval) → res chat_message)
    (as_completed : list (res (gmap string pyval)) → list (res (gmap string pyval)))
    (h : list (gmap string pyval)) (row : loc)
    (active_agents_dict :
       list (string * (GenerativeModel * (FunctionCall → pyval → res pyval))))
    (h' : list (gmap string pyval)) (combined : loc) :
  (∀ fs, as_completed fs ≡ₚ fs) →
  (row < length h)%nat →
  process_single_row_threaded protos_FunctionResponse as_completed h row active_agents_dict
  = (h', combined) →
  h' !! row = h !! row ∧
  combined ≠ row ∧
  (∀ k : string,
      (∀ name, name ∈ active_agents_dict.*1 → k ∉ record_keys name) →
      deref h' combined !! k = deref h row !! k) ∧
  deref h' combined !! "id" = deref h row !! "id" ∧
  deref h' combined !! "Answer" = deref h row !! "Answer".
Proof.
  intros Hp Hrow Hrun.
  apply enriched_row_eq in Hrun as (-> & -> & ->).
  assert (Hframe : ∀ k : string,
            (∀ name, name ∈ active_agents_dict.*1 → k ∉ record_keys name) →
            (foldl merge_future ∅
               (as_completed (submit_all protos_FunctionResponse
                                (default PNone (deref h row !! "Answer"))
                                active_agents_dict))
             ∪ deref h row) !! k = deref h row !! k).
  { intros k Hk. apply lookup_union_r.
    by apply (merged_not_generated protos_FunctionResponse as_completed). }
  split; [by apply deref_old|]. split; [lia|]. split; [exact Hframe|].
  split; apply Hframe; intros name _.
  - by apply (not_record_key _ _ "d"%char).
  - by apply (not_record_key _ _ "r"%char).
Qed.

Lemma row_fields_preserved_witness :
  let chat := scripted_chat (Ret no_candidates) (Ret no_candidates) in
  let genai := scripted_genai (Raise (Exception "unused")) (Ret chat) in
  let agents := active_agents (loads_known []) str_scalar genai in
  let out := process_single_row_threaded build_response (λ fs, fs) [sample_row] 0%nat
               agents in
  out.1 !! 0%nat = [sample_row] !! 0%nat ∧
  out.2 ≠ 0%nat ∧
  (∀ k : string,
      (∀ name, name ∈ agents.*1 → k ∉ record_keys name) →
      deref out.1 out.2 !! k = deref [sample_row] 0%nat !! k) ∧
  deref out.1 out.2 !! "id" = deref [sample_row] 0%nat !! "id" ∧
  deref out.1 out.2 !! "Answer" = deref [sample_row] 0%nat !! "Answer".
Proof.
  intros chat genai agents out.
  apply (row_fields_preserved build_response (λ fs, fs) [sample_row] 0%nat agents
           out.1 out.2).
  - intros fs. reflexivity.
  - simpl. lia.
  - reflexivity.
Defined.

(** C7 as stated fails for an input field that carries a generated name:
    the input row has a field [Accuracy_grade], and the enriched row maps
    that name to the grade of the Accuracy agent instead. *)
Lemma generated_name_overwrites_input_field :
  let chat := scripted_chat (Ret no_candidates) (Ret no_candidates) in
  let genai := scripted_genai (Raise (Exception "unused")) (Ret chat) in
  let row := <["Accuracy_grade" := PStr "B+"]> sample_row in
  let out := process_single_row_threaded build_response (λ fs, fs) [row] 0%nat
               (active_agents (loads_known []) str_scalar genai) in
  deref [row] 0%nat !! "Accuracy_grade" = Some (PStr "B+") ∧
  deref out.1 out.2 !! "Accuracy_grade" = Some (PInt 0).
Proof. split; vm_compute; reflexivity. Qed.

(** C9. For every row and every list of active agents with distinct names,
    the records of two different agents have disjoint key sets, and the
    enriched row is the same whatever the order in which the completed
    futures are merged. *)
Theorem merge_is_order_independent
    (protos_FunctionResponse : string → list (string * pyval) → res chat_message)
    (as_completed1 as_completed2 :
       list (res (gmap string pyval)) → list (res (gmap string pyval)))
    (h : list (gmap string pyval)) (row : loc)
    (active_agents_dict :
       list (string * (GenerativeModel * (FunctionCall → pyval → res pyval)))) :
  (∀ fs, as_completed1 fs ≡ₚ fs) →
  (∀ fs, as_completed2 fs ≡ₚ fs) →
  NoDup active_agents_dict.*1 →
  (∀ n1 m1 h1 n2 m2 h2 q d1 d2,
      (n1, (m1, h1)) ∈ active_agents_dict →
      (n2, (m2, h2)) ∈ active_agents_dict →
      n1 ≠ n2 →
      run_agent_threaded protos_FunctionResponse n1 m1 h1 q = Ret d1 →
      run_agent_threaded protos_FunctionResponse n2 m2 h2 q = Ret d2 →
      dom d1 ## dom d2) ∧
  process_single_row_threaded protos_FunctionResponse as_completed1 h row active_agents_dict
  = process_single_row_threaded protos_FunctionResponse as_completed2 h row
      active_agents_dict.
Proof.
  intros Hp1 Hp2 Hnd. split.
  - intros n1 m1 h1 n2 m2 h2 q d1 d2 _ _ Hne H1 H2.
    rewrite (run_agent_dom _ _ _ _ _ _ H1), (run_agent_dom _ _ _ _ _ _ H2).
    by apply record_keys_disjoint.
  - rewrite !process_single_row_threaded_eq.
    by rewrite (merge_perm _ as_completed1), (merge_perm _ as_completed2).
Qed.

Lemma merge_is_order_independent_witness :
  let reply := verdict (PInt 1) "ok" in
  let chat := scripted_chat (Ret (tool_call_reply sample_call)) (Ret no_candidates) in
  let genai := scripted_genai (text_reply reply) (Ret chat) in
  let agents := active_agents (loads_known [reply]) str_scalar genai in
  process_single_row_threaded build_response (λ fs, fs) [sample_row] 0%nat agents
  = process_single_row_threaded build_response (@rev _) [sample_row] 0%nat agents.
Proof.
  intros reply chat genai agents.
  apply (merge_is_order_independent build_response (λ fs, fs) (@rev _)
           [sample_row] 0%nat agents).
  - intros fs. reflexivity.
  - intros fs. symmetry. apply Permutation_rev.
  - unfold agents, active_agents, agent_configs. simpl.
    repeat (apply NoDup_cons_2; [set_solver|]). apply NoDup_nil_2.
Defined.

(** ** Batch driver *)

(** C3, as the code has it.  A dataset that cannot be read does not halt
    the batch: [run_parallel_system_threaded] then saves exactly the
    enriched rows of its two built-in rows, which keep their ids 101 and
    102 and their answers.  Run as a script, the module stops before the
    batch in exactly two cases, an unset or empty [GOOGLE_API_KEY] (exit
    status 1) and a missing file [sm_answers.csv]; in every other case it
    saves, for each row read (or each built-in row when reading fails) and
    in order, the enriched row of that row. *)
Theorem unreadable_dataset_uses_dummy_rows
    (json_loads : string → res pyval) (py_str : pyval → string)
    (genai_GenerativeModel : string → list tool_function → option string → GenerativeModel)
    (protos_FunctionResponse : string → list (string * pyval) → res chat_message)
    (as_completed : list (res (gmap string pyval)) → list (res (gmap string pyval)))
    (pd_read_csv : string → res (list (gmap string pyval)))
    (os_path_exists : string → bool) (os_getenv : string → option string) :
  let script :=
    working_functions_main json_loads py_str genai_GenerativeModel protos_FunctionResponse as_completed
      pd_read_csv os_path_exists os_getenv in
  let enriched :=
    enrich protos_FunctionResponse as_completed
      (active_agents json_loads py_str genai_GenerativeModel) in
  (∀ csv_path e,
      pd_read_csv csv_path = Raise e →
      run_parallel_system_threaded json_loads py_str genai_GenerativeModel
        protos_FunctionResponse as_completed pd_read_csv csv_path
      = Saved "FINAL_threaded_report_with_graphs.csv" (enriched <$> dummy_data) ∧
      ((∀ fs, as_completed fs ≡ₚ fs) →
       (λ r : gmap string pyval, (r !! "id", r !! "Answer")) <$> (enriched <$> dummy_data)
       = [(Some (PInt 101), Some (PStr "The sun is cold and blue."));
          (Some (PInt 102),
           Some (PStr "I understand this is difficult. The treatment is effective."))])) ∧
  (os_getenv "GOOGLE_API_KEY" = None ∨ os_getenv "GOOGLE_API_KEY" = Some "" →
   script = SysExit 1) ∧
  (∀ c key, os_getenv "GOOGLE_API_KEY" = Some (String c key) →
            os_path_exists "sm_answers.csv" = false →
            script = InputFileMissing) ∧
  (∀ c key, os_getenv "GOOGLE_API_KEY" = Some (String c key) →
            os_path_exists "sm_answers.csv" = true →
            ∃ rows,
              script = Saved "FINAL_threaded_report_with_graphs.csv" rows ∧
              length rows = length (match pd_read_csv "sm_answers.csv" with
                                    | Ret df => df
                                    | Raise _ => dummy_data
                                    end) ∧
              ∀ (i : nat) r,
                match pd_read_csv "sm_answers.csv" with
                | Ret df => df
                | Raise _ => dummy_data
                end !! i = Some r →
                rows !! i = Some (enriched match r !! "id" with
                                           | Some _ => r
                                           | None => <["id" := PInt (Z.of_nat i)]> r
                                           end)).
Proof.
  intros script enriched. subst script. unfold working_functions_main.
  split; [|split; [|split]].
  - intros csv_path e He. split.
    + destruct (run_parallel_system_threaded_enriched json_loads py_str
                  genai_GenerativeModel protos_FunctionResponse as_completed
                  pd_read_csv csv_path) as (rows & -> & Hlen & Hall).
      rewrite He in Hlen, Hall. f_equal.
      pose proof (Hall 0%nat _ eq_refl) as H0. pose proof (Hall 1%nat _ eq_refl) as H1.
      destruct rows as [|a [|b [|c rows]]]; try discriminate Hlen.
      simpl in H0, H1. injection H0 as ->. injection H1 as ->. reflexivity.
    + intros Hp.
      assert (Hkeep : ∀ (k : string) (c : ascii) (row : gmap string pyval),
                last_char k = Some c → c ≠ "e"%char → c ≠ "n"%char → c ≠ "h"%char →
                enriched row !! k = row !! k).
      { intros k c row Hk Hce Hcn Hch. subst enriched. unfold enrich.
        destruct (process_single_row_threaded _ _ _ _ _) as [h' combined] eqn:Hproc.
        apply enriched_row_eq in Hproc as (_ & _ & ->).
        rewrite lookup_union_r; [reflexivity|].
        apply (merged_not_generated protos_FunctionResponse as_completed); [done|].
        intros name _. by apply (not_record_key k name c). }
      unfold dummy_data. simpl.
      by rewrite !(Hkeep "id" "d"%char), !(Hkeep "Answer" "r"%char) by done.
  - by intros [->| ->].
  - intros c key -> ->. done.
  - intros c key -> ->. apply run_parallel_system_threaded_enriched.
Qed.

Lemma unreadable_dataset_uses_dummy_rows_witness :
  let reply := verdict (PInt 1) "ok" in
  let chat := scripted_chat (Ret (tool_call_reply sample_call)) (Ret no_candidates) in
  let genai := scripted_genai (text_reply reply) (Ret chat) in
  let read_csv := λ _ : string, Raise (Exception "Error tokenizing data") in
  let enriched :=
    enrich build_response (λ fs, fs) (active_agents (loads_known [reply]) str_scalar genai) in
  run_parallel_system_threaded (loads_known [reply]) str_scalar genai build_response
    (λ fs, fs) read_csv "sm_answers.csv"
  = Saved "FINAL_threaded_report_with_graphs.csv" (enriched <$> dummy_data) ∧
  (λ r : gmap string pyval, (r !! "id", r !! "Answer")) <$> (enriched <$> dummy_data)
  = [(Some (PInt 101), Some (PStr "The sun is cold and blue."));
     (Some (PInt 102),
      Some (PStr "I understand this is difficult. The treatment is effective."))].
Proof.
  intros reply chat genai read_csv enriched.
  destruct (proj1 (unreadable_dataset_uses_dummy_rows (loads_known [reply]) str_scalar
                     genai build_response (λ fs, fs) read_csv (λ _, true)
                     (λ _, Some "key"))
              "sm_answers.csv" (Exception "Error tokenizing data") eq_refl)
    as [Hsaved Hids].
  split; [exact Hsaved|]. apply Hids. intros fs. reflexivity.
Defined.

(** C3 as stated fails: the file exists but cannot be read, and the script
    still runs the three agents on two rows and saves both. *)
Lemma unreadable_dataset_does_not_halt :
  let reply := verdict (PInt 1) "ok" in
  let chat := scripted_chat (Ret (tool_call_reply sample_call)) (Ret no_candidates) in
  let genai := scripted_genai (text_reply reply) (Ret chat) in
  let read_csv := λ _ : string, Raise (Exception "Error tokenizing data") in
  match working_functions_main (loads_known [reply]) str_scalar genai build_response
          (λ fs, fs) read_csv (λ _, true) (λ _, Some "key") with
  | Saved _ rows =>
      (λ r : gmap string pyval, (r !! "id", r !! "Accuracy_grade")) <$> rows
      = [(Some (PInt 101), Some (PInt 1)); (Some (PInt 102), Some (PInt 1))]
  | _ => False
  end.
Proof. vm_compute. reflexivity. Qed.


(** * Further properties of the module *)

(** ** The worker, path by path *)

Lemma default_record_of (n : string) :
  default_record n = record_of n (PInt 0) (PStr "Failed to run") (PStr "[]").
Proof. reflexivity. Qed.

Lemma record_of_set_reason (n : string) (a b c r : pyval) :
  <[reason_key n := r]> (record_of n a b c) = record_of n a r c.
Proof.
  unfold record_of. pose proof (reason_ne_graph n).
  rewrite (insert_insert_ne _ (reason_key n) (graph_key n)) by done.
  by rewrite insert_insert_eq.
Qed.

Lemma record_of_store (n : string) (kvs : list (string * pyval)) (a b c : pyval) :
  store_result n (PDict kvs) (record_of n a b c)
  = record_of n (dict_get kvs "judgment_score" (PInt 0))
      (dict_get kvs "judgment_reason" (PStr ""))
      (PStr (json_dumps (PDict [("nodes", dict_get kvs "graph_nodes" PNone);
                                ("edges", dict_get kvs "graph_edges" PNone)]))).
Proof.
  unfold store_result, record_of.
  pose proof (grade_ne_reason n). pose proof (grade_ne_graph n).
  pose proof (reason_ne_graph n).
  apply map_eq. intros k.
  destruct (decide (k = graph_key n)) as [->|Hg];
    [|destruct (decide (k = reason_key n)) as [->|Hr];
      [|destruct (decide (k = grade_key n)) as [->|Hgr]]];
    repeat (rewrite lookup_insert_eq || rewrite lookup_insert_ne by done); done.
Qed.

Section Worker_paths.

Context (protos_FunctionResponse : string → list (string * pyval) → res chat_message).

Local Abbreviation run_agent := (run_agent_threaded protos_FunctionResponse).

(** The worker's result once the forced reply is a tool call. *)
Lemma run_agent_tool_call (n : string) mdl hd q chat response fc :
  start_chat mdl = Ret chat →
  send_message chat (UserText q) forced_mode = Ret response →
  first_tool_call response = Some fc →
  run_agent n mdl hd q
  = Ret match hd fc q with
        | Raise e => record_of n (PInt 0) (PStr ("Error: " +:+ exn_str e)) (PStr "[]")
        | Ret result =>
            let stored := store_result n result (default_record n) in
            match send_followup protos_FunctionResponse chat fc result with
            | Ret _ => stored
            | Raise e => <[reason_key n := PStr ("Error: " +:+ exn_str e)]> stored
            end
        end.
Proof.
  intros Hc Hs Hf. unfold run_agent_threaded. rewrite Hc. simpl.
  rewrite (try_block_tool_call _ _ _ _ _ _ _ _ Hs Hf).
  destruct (hd fc q) as [result|e]; simpl.
  - unfold send_followup.
    destruct (protos_FunctionResponse _ _) as [tr|e]; simpl; [|done].
    by destruct (send_message chat tr auto_mode).
  - by rewrite default_record_of, record_of_set_reason.
Qed.

End Worker_paths.

(** Rewrites the worker's result along the path on which the judge
    returned the dictionary [kvs] and the follow-up went through. *)
Ltac verdict_path Hc Hs Hf Hj Hfu :=
  rewrite (run_agent_tool_call _ _ _ _ _ _ _ _ Hc Hs Hf); simpl;
  rewrite (handle_tool_call_dict _ _ _ _ _ _ _ _ Hj);
  match type of Hj with
  | _ = Ret (PDict ?kvs) => fold (callback_record kvs)
  end;
  rewrite Hfu;
  unfold callback_record; rewrite default_record_of, record_of_store.

Section Agent_paths.

Context (json_loads : string → res pyval) (py_str : pyval → string)
        (genai_GenerativeModel :
           string → list tool_function → option string → GenerativeModel)
        (protos_FunctionResponse : string → list (string * pyval) → res chat_message).

Local Abbreviation judge := (run_judgment_llm json_loads py_str genai_GenerativeModel).
Local Abbreviation agent := (create_agent json_loads py_str genai_GenerativeModel).
Local Abbreviation run_agent := (run_agent_threaded protos_FunctionResponse).

(** X1. When the forced reply is a tool call, the judge returns a
    dictionary and the follow-up message goes through, the worker of an
    agent built by [create_agent] returns exactly this record: the grade is
    the judge's [score] ([None] when absent), the reason is its
    [explanation] ([None] when absent), and the graph is the JSON text of
    the object holding its [graph_nodes] and [graph_edges] (an empty list
    for an absent one). *)
Theorem worker_records_judge_verdict (n : string) (tool : tool_function) (desc : string)
    (q : pyval) (chat : ChatSession) (response : ChatResponse) (fc : FunctionCall)
    (kvs : list (string * pyval)) (reply : ChatResponse) :
  start_chat (agent n tool desc).1 = Ret chat →
  send_message chat (UserText q) forced_mode = Ret response →
  first_tool_call response = Some fc →
  judge n desc (callback_input fc q) = Ret (PDict kvs) →
  send_followup protos_FunctionResponse chat fc (callback_record kvs) = Ret reply →
  run_agent n (agent n tool desc).1 (agent n tool desc).2 q
  = Ret (record_of n (dict_get kvs "score" PNone) (dict_get kvs "explanation" PNone)
           (PStr (json_dumps
                    (PDict [("nodes", dict_get kvs "graph_nodes" (PList []));
                            ("edges", dict_get kvs "graph_edges" (PList []))])))).
Proof.
  intros Hc Hs Hf Hj Hfu. verdict_path Hc Hs Hf Hj Hfu. reflexivity.
Qed.

(** X2. Under the same conditions, the fallback values 0 and the empty
    string of the worker are never used for a field the judge left out: an
    omitted [score] gives the grade [None], an omitted [explanation] gives
    the reason [None], and omitted node and edge lists give the JSON text
    of the graph with two empty arrays. *)
Theorem worker_omitted_fields (n : string) (tool : tool_function) (desc : string)
    (q : pyval) (chat : ChatSession) (response : ChatResponse) (fc : FunctionCall)
    (kvs : list (string * pyval)) (reply : ChatResponse) :
  start_chat (agent n tool desc).1 = Ret chat →
  send_message chat (UserText q) forced_mode = Ret response →
  first_tool_call response = Some fc →
  judge n desc (callback_input fc q) = Ret (PDict kvs) →
  send_followup protos_FunctionResponse chat fc (callback_record kvs) = Ret reply →
  ∃ d, run_agent n (agent n tool desc).1 (agent n tool desc).2 q = Ret d ∧
       (dict_find "score" kvs = None → d !! grade_key n = Some PNone) ∧
       (dict_find "explanation" kvs = None → d !! reason_key n = Some PNone) ∧
       (dict_find "graph_nodes" kvs = None → dict_find "graph_edges" kvs = None →
        d !! graph_key n = Some (PStr empty_graph_text)).
Proof.
  intros Hc Hs Hf Hj Hfu.
  pose proof (grade_ne_reason n). pose proof (grade_ne_graph n).
  pose proof (reason_ne_graph n).
  eexists. split; [verdict_path Hc Hs Hf Hj Hfu; reflexivity|].
  unfold record_of, dict_get. simpl. repeat split.
  - intros ->. by rewrite !lookup_insert_ne, lookup_insert_eq by done.
  - intros ->. by rewrite lookup_insert_ne, lookup_insert_eq by done.
  - intros -> ->. by rewrite lookup_insert_eq.
Qed.

(** X3. When the judge's request fails (the request raises, reading the
    reply raises, or the reply is not JSON) and the follow-up message goes
    through, the worker returns the grade 0, the reason Judge crashed:
    followed by the exception's message, and the graph with two empty
    arrays. *)
Theorem worker_judge_failure_record (n : string) (tool : tool_function) (desc : string)
    (q : pyval) (chat : ChatSession) (response : ChatResponse) (fc : FunctionCall)
    (e : exn) (reply : ChatResponse) :
  start_chat (agent n tool desc).1 = Ret chat →
  send_message chat (UserText q) forced_mode = Ret response →
  first_tool_call response = Some fc →
  judge_failure json_loads (genai_GenerativeModel "gemini-2.5-flash" [] None)
    (judge_prompt py_str n desc (callback_input fc q)) e →
  send_followup protos_FunctionResponse chat fc
    (PDict [("status", PStr "success");
            ("judgment_score", PInt 0);
            ("judgment_reason", PStr ("Judge crashed: " +:+ exn_str e));
            ("graph_nodes", PList []);
            ("graph_edges", PList [])]) = Ret reply →
  run_agent n (agent n tool desc).1 (agent n tool desc).2 q
  = Ret (record_of n (PInt 0) (PStr ("Judge crashed: " +:+ exn_str e))
           (PStr empty_graph_text)).
Proof.
  intros Hc Hs Hf He Hfu.
  apply run_judgment_llm_failure in He. unfold judge_crashed in He.
  match type of He with
  | _ = Ret (PDict ?kvs) =>
      change (PDict _) with (callback_record kvs) in Hfu
  end.
  verdict_path Hc Hs Hf He Hfu. reflexivity.
Qed.

(** X4. When the judge's reply parses to a JSON value that is not an
    object, the callback's [AttributeError] is caught by the worker: the
    record has the grade 0, the graph text of the initial record, and the
    reason Error: followed by the message that the value's type has no
    attribute [get]. *)
Theorem worker_non_object_verdict (n : string) (tool : tool_function) (desc : string)
    (q : pyval) (chat : ChatSession) (response : ChatResponse) (fc : FunctionCall)
    (v : pyval) :
  start_chat (agent n tool desc).1 = Ret chat →
  send_message chat (UserText q) forced_mode = Ret response →
  first_tool_call response = Some fc →
  judge n desc (callback_input fc q) = Ret v →
  (∀ kvs, v ≠ PDict kvs) →
  run_agent n (agent n tool desc).1 (agent n tool desc).2 q
  = Ret (record_of n (PInt 0)
           (PStr ("Error: '" +:+ type_name v +:+ "' object has no attribute 'get'"))
           (PStr "[]")).
Proof.
  intros Hc Hs Hf Hj Hv.
  rewrite (run_agent_tool_call _ _ _ _ _ _ _ _ Hc Hs Hf). simpl.
  rewrite handle_tool_call_input, Hj.
  destruct v; try reflexivity. by destruct (Hv kvs).
Qed.

(** X5. For every callback, a forced request that raises leaves the grade
    0 and the initial graph text and sets the reason to Error: followed by
    the exception's message; a forced reply without a tool call returns
    the initial record, with the reason Failed to run. *)
Theorem worker_early_failures (n : string) (mdl : GenerativeModel)
    (hd : FunctionCall → pyval → res pyval) (q : pyval) (chat : ChatSession) :
  start_chat mdl = Ret chat →
  (∀ e, send_message chat (UserText q) forced_mode = Raise e →
        run_agent n mdl hd q
        = Ret (record_of n (PInt 0) (PStr ("Error: " +:+ exn_str e)) (PStr "[]"))) ∧
  (∀ response, send_message chat (UserText q) forced_mode = Ret response →
               no_tool_call response = true →
               run_agent n mdl hd q
               = Ret (record_of n (PInt 0) (PStr "Failed to run") (PStr "[]"))).
Proof.
  intros Hc. split.
  - intros e He. unfold run_agent_threaded, try_block. rewrite Hc. simpl. rewrite He.
    by rewrite default_record_of, record_of_set_reason.
  - intros response Hs Hv. apply first_tool_call_none in Hv.
    unfold run_agent_threaded. rewrite Hc. simpl.
    by rewrite (try_block_violation _ _ _ _ _ _ _ Hs Hv).
Qed.

End Agent_paths.

(** ** The enriched row, agent by agent *)

Lemma NoDup_fst_unique {A B} (l : list (A * B)) (a : A) (b1 b2 : B) :
  NoDup l.*1 → (a, b1) ∈ l → (a, b2) ∈ l → b1 = b2.
Proof.
  induction l as [|[a' b'] l IH]; simpl; intros Hnd H1 H2.
  - by apply elem_of_nil in H1.
  - apply NoDup_cons in Hnd as [Hnotin Hnd].
    assert (Hfst : ∀ b, (a', b) ∈ l → False).
    { intros b Hb. apply Hnotin. apply list_elem_of_fmap. by exists (a', b). }
    apply elem_of_cons in H1 as [H1|H1]; apply elem_of_cons in H2 as [H2|H2].
    + congruence.
    + injection H1 as -> ->. by destruct (Hfst b2).
    + injection H2 as -> ->. by destruct (Hfst b1).
    + by apply IH.
Qed.

Section Row_more.

Context (protos_FunctionResponse : string → list (string * pyval) → res chat_message)
        (as_completed : list (res (gmap string pyval)) → list (res (gmap string pyval))).

Implicit Types
  (agents : list (string * (GenerativeModel * (FunctionCall → pyval → res pyval)))).

Local Abbreviation run_agent := (run_agent_threaded protos_FunctionResponse).
Local Abbreviation process :=
  (process_single_row_threaded protos_FunctionResponse as_completed).

Lemma run_agent_escapes (n : string) mdl hd q e :
  start_chat mdl = Raise e → run_agent n mdl hd q = Raise e.
Proof. intros Hc. unfold run_agent_threaded. by rewrite Hc. Qed.

(** X6. When opening the conversation raises, the exception escapes the
    worker, the orchestrator drops it, and the enriched row has for each of
    that agent's three field names exactly what the input row had: nothing
    is added for the agent, no default record either. *)
Theorem escaped_agent_adds_nothing (h : list (gmap string pyval)) (row : loc) agents
    (n : string) (mdl : GenerativeModel) (hd : FunctionCall → pyval → res pyval)
    (e : exn) (h' : list (gmap string pyval)) (combined : loc) :
  (∀ fs, as_completed fs ≡ₚ fs) →
  NoDup agents.*1 →
  (n, (mdl, hd)) ∈ agents →
  start_chat mdl = Raise e →
  process h row agents = (h', combined) →
  (∀ q, run_agent n mdl hd q = Raise e) ∧
  (∀ k, k ∈ record_keys n → deref h' combined !! k = deref h row !! k).
Proof.
  intros Hp Hnd Hin Hc Hrun. split; [intros q; by apply run_agent_escapes|].
  apply enriched_row_eq in Hrun as (_ & _ & ->).
  intros k Hk. apply lookup_union_r. apply not_elem_of_dom. intros Hdom.
  apply merge_dom_sub in Hdom as [Hdom|(f & Hf & Hkf)]; [set_solver|].
  apply submitted_future in Hf as (n' & mdl' & hd' & Hin' & ->); [|done].
  destruct (decide (n' = n)) as [->|Hne].
  - pose proof (NoDup_fst_unique _ _ _ _ Hnd Hin Hin') as Heq.
    injection Heq as <- <-.
    rewrite (run_agent_escapes _ _ _ _ _ Hc) in Hkf. set_solver.
  - pose proof (future_dom_run protos_FunctionResponse n' mdl' hd' _ _ Hkf) as Hk'.
    by destruct (record_keys_disjoint n' n Hne k).
Qed.

(** X7. The field names of the enriched row are those of the input row
    together with the three generated names of every active agent whose
    conversation could be opened, and no others. *)
Theorem enriched_row_keys (h : list (gmap string pyval)) (row : loc) agents
    (h' : list (gmap string pyval)) (combined : loc) :
  (∀ fs, as_completed fs ≡ₚ fs) →
  process h row agents = (h', combined) →
  ∀ k : string,
    k ∈ dom (deref h' combined) ↔
    k ∈ dom (deref h row) ∨
    ∃ n mdl hd chat,
      (n, (mdl, hd)) ∈ agents ∧ start_chat mdl = Ret chat ∧ k ∈ record_keys n.
Proof.
  intros Hp Hrun k. apply enriched_row_eq in Hrun as (_ & _ & ->).
  rewrite dom_union_L, elem_of_union. split.
  - intros [Hk|Hk]; [|by left]. right.
    apply merge_dom_sub in Hk as [Hk|(f & Hf & Hkf)]; [set_solver|].
    apply submitted_future in Hf as (n & mdl & hd & Hin & ->); [|done].
    destruct (start_chat mdl) as [chat|e] eqn:Hc.
    + exists n, mdl, hd, chat. split; [done|]. split; [done|].
      revert Hkf. apply future_dom_run.
    + rewrite (run_agent_escapes _ _ _ _ _ Hc) in Hkf. set_solver.
  - intros [Hk|(n & mdl & hd & chat & Hin & Hc & Hk)]; [by right|]. left.
    destruct (run_agent_returns protos_FunctionResponse n mdl hd
                (default PNone (deref h row !! "Answer")) chat Hc) as [d Hd].
    pose proof (future_submitted protos_FunctionResponse as_completed _ _ _ _
                  (default PNone (deref h row !! "Answer")) Hp Hin) as Hf.
    rewrite Hd in Hf. apply (merge_dom_sup _ ∅) in Hf.
    rewrite (run_agent_dom _ _ _ _ _ _ Hd) in Hf. set_solver.
Qed.

End Row_more.

(** ** The batch, row by row *)

Section Batch_more.

Context (json_loads : string → res pyval) (py_str : pyval → string)
        (genai_GenerativeModel :
           string → list tool_function → option string → GenerativeModel)
        (protos_FunctionResponse : string → list (string * pyval) → res chat_message)
        (as_completed : list (res (gmap string pyval)) → list (res (gmap string pyval)))
        (pd_read_csv : string → res (list (gmap string pyval))).

Local Abbreviation agents := (active_agents json_loads py_str genai_GenerativeModel).
Local Abbreviation process :=
  (process_single_row_threaded protos_FunctionResponse as_completed).
Local Abbreviation loop :=
  (iterrows json_loads py_str genai_GenerativeModel protos_FunctionResponse as_completed).
Local Abbreviation batch :=
  (run_parallel_system_threaded json_loads py_str genai_GenerativeModel
     protos_FunctionResponse as_completed pd_read_csv).

(** X8. The saved rows follow the input rows one for one and in order: the
    saved row at position [i] keeps the [Answer] of the input row at
    position [i] and its [id], or carries the position [i] as [id] when the
    input row has none.  This holds for the rows read from the file and
    for the built-in rows used when reading fails. *)
Theorem batch_keeps_rows_in_order (csv_path : string) :
  (∀ fs, as_completed fs ≡ₚ fs) →
  let df := match pd_read_csv csv_path with
            | Ret df => df
            | Raise _ => dummy_data
            end in
  ∃ rows,
    batch csv_path = Saved "FINAL_threaded_report_with_graphs.csv" rows ∧
    length rows = length df ∧
    ∀ (i : nat) r, df !! i = Some r →
      ∃ out, rows !! i = Some out ∧
             out !! "Answer" = r !! "Answer" ∧
             out !! "id" = Some (default (PInt (Z.of_nat i)) (r !! "id")).
Proof.
  intros Hp df.
  destruct (iterrows_each json_loads py_str genai_GenerativeModel
              protos_FunctionResponse as_completed
              (λ index r out,
                 out !! "Answer" = r !! "Answer" ∧
                 out !! "id" = Some (default (PInt index) (r !! "id")))) with
    (rows := df) (h := @nil (gmap string pyval)) (index := 0) (final_rows := @nil loc)
    as (ext & locs & Hloop & Hlen & Hall).
  { intros h index r h' combined Hproc.
    apply enriched_row_eq in Hproc as (_ & _ & ->).
    rewrite deref_alloc.
    assert (Hkeep : ∀ (k : string) (c : ascii) m,
              last_char k = Some c → c ≠ "e"%char → c ≠ "n"%char → c ≠ "h"%char →
              (foldl merge_future ∅
                 (as_completed (submit_all protos_FunctionResponse
                                  (default PNone (m !! "Answer")) agents)) ∪ m) !! k
              = m !! k).
    { intros k c m Hk He Hn Hh. apply lookup_union_r. apply not_elem_of_dom.
      intros Hdom. apply merge_dom_sub in Hdom as [Hdom|(f & Hf & Hkf)]; [set_solver|].
      apply submitted_future in Hf as (n & mdl & hd & _ & ->); [|done].
      apply future_dom_run in Hkf. by apply (not_record_key k n c). }
    rewrite (Hkeep "Answer" "r"%char), (Hkeep "id" "d"%char) by done.
    destruct (r !! "id") as [v|] eqn:Hid; simpl.
    - by rewrite Hid.
    - by rewrite lookup_insert_ne, lookup_insert_eq. }
  unfold run_parallel_system_threaded. fold df. simpl in Hloop. rewrite Hloop.
  eexists. split; [reflexivity|]. split; [by rewrite length_fmap|].
  intros i r Hi. destruct (Hall i r Hi) as (l & Hl & HA & HI).
  exists (deref ext l). rewrite list_lookup_fmap, Hl. simpl.
  rewrite Z.add_0_l in HI. done.
Qed.

(** X9. When the conversation of each of the three configured agents can
    be opened, every saved row contains all nine generated fields: grade,
    reason and graph for Accuracy, Completeness and Empathy. *)
Theorem batch_rows_have_all_fields (csv_path : string) :
  (∀ fs, as_completed fs ≡ₚ fs) →
  (∀ name tool desc,
      (name, tool, desc) ∈ agent_configs →
      ∃ chat, start_chat (create_agent json_loads py_str genai_GenerativeModel
                            name tool desc).1 = Ret chat) →
  ∃ rows,
    batch csv_path = Saved "FINAL_threaded_report_with_graphs.csv" rows ∧
    ∀ out name, out ∈ rows → name ∈ ["Accuracy"; "Completeness"; "Empathy"] →
      record_keys name ⊆ dom out.
Proof.
  intros Hp Hopen.
  set (df := match pd_read_csv csv_path with Ret df => df | Raise _ => dummy_data end).
  destruct (iterrows_each json_loads py_str genai_GenerativeModel
              protos_FunctionResponse as_completed
              (λ _ _ out,
                 ∀ name, name ∈ ["Accuracy"; "Completeness"; "Empathy"] →
                         record_keys name ⊆ dom out)) with
    (rows := df) (h := @nil (gmap string pyval)) (index := 0) (final_rows := @nil loc)
    as (ext & locs & Hloop & Hlen & Hall).
  { intros h index r h' combined Hproc name Hname.
    apply enriched_row_eq in Hproc as (_ & _ & ->).
    assert (Hcfg : ∃ tool desc, (name, tool, desc) ∈ agent_configs).
    { unfold agent_configs. set_unfold in Hname.
      destruct Hname as [->|[->|[->|[]]]];
        [exists check_accuracy|exists check_completeness|exists check_empathy];
        eexists;
        repeat first [apply list_elem_of_here | apply list_elem_of_further]. }
    destruct Hcfg as (tool & desc & Hcfg).
    destruct (Hopen _ _ _ Hcfg) as [chat Hc].
    assert (Hin : (name, create_agent json_loads py_str genai_GenerativeModel
                           name tool desc) ∈ agents).
    { unfold active_agents. apply list_elem_of_fmap. by exists (name, tool, desc). }
    set (q := default PNone (deref (h ++ [_]) (length h) !! "Answer")).
    destruct (run_agent_returns protos_FunctionResponse name _
                (create_agent json_loads py_str genai_GenerativeModel name tool desc).2
                q chat Hc) as [d Hd].
    pose proof (future_submitted protos_FunctionResponse as_completed _ _ _ _ q Hp Hin)
      as Hf.
    simpl in Hd. rewrite Hd in Hf. apply (merge_dom_sup _ ∅) in Hf.
    rewrite (run_agent_dom _ _ _ _ _ _ Hd) in Hf.
    rewrite dom_union_L. set_solver. }
  unfold run_parallel_system_threaded. fold df. simpl in Hloop. rewrite Hloop.
  eexists. split; [reflexivity|].
  intros out name Hout Hname.
  apply list_elem_of_fmap in Hout as (l & -> & Hl).
  apply list_elem_of_lookup in Hl as [i Hi].
  assert (Hr : ∃ r, df !! i = Some r).
  { apply lookup_lt_is_Some. rewrite <- Hlen. by apply lookup_lt_is_Some_1; eexists. }
  destruct Hr as [r Hr]. destruct (Hall i r Hr) as (l' & Hl' & HP).
  rewrite Hi in Hl'. injection Hl' as <-. by apply HP.
Qed.

End Batch_more.

(** ** The properties above at scripted worlds *)

Lemma worker_records_judge_verdict_witness :
  let reply := verdict (PInt 1) "ok" in
  let chat := scripted_chat (Ret (tool_call_reply sample_call)) (Ret no_candidates) in
  let genai := scripted_genai (text_reply reply) (Ret chat) in
  let agent := create_agent (loads_known [reply]) str_scalar genai "Accuracy"
                 check_accuracy "Factually accurate, citing correct numbers." in
  run_agent_threaded build_response "Accuracy" agent.1 agent.2
    (PStr "The sun is cold and blue.")
  = Ret (record_of "Accuracy" (PInt 1) (PStr "ok")
           (PStr (json_dumps
                    (PDict [("nodes", PList [PDict [("id", PStr "sun");
                                                    ("type", PStr "claim")]]);
                            ("edges", PList [])])))).
Proof.
  intros reply chat genai agent.
  apply (worker_records_judge_verdict (loads_known [reply]) str_scalar genai build_response
           "Accuracy" check_accuracy "Factually accurate, citing correct numbers."
           (PStr "The sun is cold and blue.") chat (tool_call_reply sample_call)
           sample_call
           [("score", PInt 1); ("explanation", PStr "ok");
            ("graph_nodes", PList [PDict [("id", PStr "sun"); ("type", PStr "claim")]]);
            ("graph_edges", PList [])]
           no_candidates);
    reflexivity.
Defined.

Lemma worker_omitted_fields_witness :
  let reply := PDict [("comment", PStr "looks fine")] in
  let chat := scripted_chat (Ret (tool_call_reply sample_call)) (Ret no_candidates) in
  let genai := scripted_genai (text_reply reply) (Ret chat) in
  let agent := create_agent (loads_known [reply]) str_scalar genai "Accuracy"
                 check_accuracy "Factually accurate, citing correct numbers." in
  ∃ d, run_agent_threaded build_response "Accuracy" agent.1 agent.2
         (PStr "The sun is cold and blue.") = Ret d ∧
       d !! grade_key "Accuracy" = Some PNone ∧
       d !! reason_key "Accuracy" = Some PNone ∧
       d !! graph_key "Accuracy" = Some (PStr empty_graph_text).
Proof.
  intros reply chat genai agent.
  destruct (worker_omitted_fields (loads_known [reply]) str_scalar genai build_response
              "Accuracy" check_accuracy "Factually accurate, citing correct numbers."
              (PStr "The sun is cold and blue.") chat (tool_call_reply sample_call)
              sample_call [("comment", PStr "looks fine")] no_candidates
              eq_refl eq_refl eq_refl eq_refl eq_refl)
    as (d & Hd & Hgrade & Hreason & Hgraph).
  exists d. split; [exact Hd|].
  split; [exact (Hgrade eq_refl)|]. split; [exact (Hreason eq_refl)|].
  exact (Hgraph eq_refl eq_refl).
Defined.

Lemma worker_judge_failure_record_witness :
  let chat := scripted_chat (Ret (tool_call_reply sample_call)) (Ret no_candidates) in
  let genai := scripted_genai (Raise (Exception "503 Service Unavailable")) (Ret chat) in
  let agent := create_agent (loads_known []) str_scalar genai "Empathy"
                 check_empathy "Tone is warm, understanding, and human-like." in
  run_agent_threaded build_response "Empathy" agent.1 agent.2
    (PStr "The sun is cold and blue.")
  = Ret (record_of "Empathy" (PInt 0) (PStr "Judge crashed: 503 Service Unavailable")
           (PStr empty_graph_text)).
Proof.
  intros chat genai agent.
  apply (worker_judge_failure_record (loads_known []) str_scalar genai build_response
           "Empathy" check_empathy "Tone is warm, understanding, and human-like."
           (PStr "The sun is cold and blue.") chat (tool_call_reply sample_call)
           sample_call (Exception "503 Service Unavailable") no_candidates);
    try reflexivity.
  apply request_raises. reflexivity.
Defined.

Lemma worker_non_object_verdict_witness :
  let chat := scripted_chat (Ret (tool_call_reply sample_call)) (Ret no_candidates) in
  let genai := scripted_genai (text_reply (PList [])) (Ret chat) in
  let agent := create_agent (loads_known [PList []]) str_scalar genai "Accuracy"
                 check_accuracy "Factually accurate, citing correct numbers." in
  run_agent_threaded build_response "Accuracy" agent.1 agent.2
    (PStr "The sun is cold and blue.")
  = Ret (record_of "Accuracy" (PInt 0)
           (PStr "Error: 'list' object has no attribute 'get'") (PStr "[]")).
Proof.
  intros chat genai agent.
  apply (worker_non_object_verdict (loads_known [PList []]) str_scalar genai
           build_response "Accuracy" check_accuracy
           "Factually accurate, citing correct numbers."
           (PStr "The sun is cold and blue.") chat (tool_call_reply sample_call)
           sample_call (PList []));
    try reflexivity.
  intros kvs. discriminate.
Defined.

Lemma worker_early_failures_witness :
  let chat := scripted_chat (Raise (Exception "deadline exceeded")) (Ret no_candidates) in
  let mdl := scripted_model (Raise (Exception "unused")) (Ret chat) in
  run_agent_threaded build_response "Completeness" mdl
    (λ _ _, Ret PNone) (PStr "The sun is cold and blue.")
  = Ret (record_of "Completeness" (PInt 0) (PStr "Error: deadline exceeded") (PStr "[]")).
Proof.
  intros chat mdl.
  apply (proj1 (worker_early_failures build_response "Completeness" mdl
                  (λ _ _, Ret PNone) (PStr "The sun is cold and blue.") chat eq_refl)
           (Exception "deadline exceeded")).
  reflexivity.
Defined.

Lemma escaped_agent_adds_nothing_witness :
  let genai := scripted_genai (Raise (Exception "unused"))
                 (Raise (Exception "API key not valid")) in
  let agents := active_agents (loads_known []) str_scalar genai in
  let out := process_single_row_threaded build_response (λ fs, fs) [sample_row] 0%nat
               agents in
  deref out.1 out.2 !! grade_key "Accuracy" = deref [sample_row] 0%nat !! grade_key "Accuracy" ∧
  deref out.1 out.2 !! graph_key "Accuracy" = deref [sample_row] 0%nat !! graph_key "Accuracy".
Proof.
  intros genai agents out.
  assert (Hnd : NoDup agents.*1).
  { unfold agents, active_agents, agent_configs. simpl.
    repeat (apply NoDup_cons_2; [set_solver|]). apply NoDup_nil_2. }
  assert (Hin : ("Accuracy",
                 (genai "gemini-2.5-flash" [check_accuracy]
                    (Some (system_instruction "Accuracy" check_accuracy)),
                  handle_tool_call (loads_known []) str_scalar genai "Accuracy"
                    "Factually accurate, citing correct numbers.")) ∈ agents).
  { unfold agents, active_agents, agent_configs. simpl. left. }
  pose proof (proj2 (escaped_agent_adds_nothing build_response (λ fs, fs) [sample_row]
                       0%nat agents "Accuracy" _ _ (Exception "API key not valid")
                       out.1 out.2 (λ fs, Permutation_refl fs) Hnd Hin eq_refl eq_refl))
    as Hkeep.
  split; apply Hkeep; unfold record_keys; set_solver.
Defined.

Lemma enriched_row_keys_witness :
  let chat := scripted_chat (Ret no_candidates) (Ret no_candidates) in
  let genai := scripted_genai (Raise (Exception "unused")) (Ret chat) in
  let agents := active_agents (loads_known []) str_scalar genai in
  let out := process_single_row_threaded build_response (λ fs, fs) [sample_row] 0%nat
               agents in
  reason_key "Empathy" ∈ dom (deref out.1 out.2) ↔
  reason_key "Empathy" ∈ dom (deref [sample_row] 0%nat) ∨
  ∃ n mdl hd chat,
    (n, (mdl, hd)) ∈ agents ∧ start_chat mdl = Ret chat ∧
    reason_key "Empathy" ∈ record_keys n.
Proof.
  intros chat genai agents out.
  apply (enriched_row_keys build_response (λ fs, fs) [sample_row] 0%nat agents
           out.1 out.2).
  - intros fs. reflexivity.
  - reflexivity.
Defined.

Lemma batch_keeps_rows_in_order_witness :
  let reply := verdict (PInt 1) "ok" in
  let chat := scripted_chat (Ret (tool_call_reply sample_call)) (Ret no_candidates) in
  let genai := scripted_genai (text_reply reply) (Ret chat) in
  let df := [sample_row; <["Answer" := PStr "Rest and fluids help."]> ∅] in
  ∃ rows,
    run_parallel_system_threaded (loads_known [reply]) str_scalar genai build_response
      (@rev _) (λ _, Ret df) "sm_answers.csv"
    = Saved "FINAL_threaded_report_with_graphs.csv" rows ∧
    length rows = 2%nat ∧
    ∀ (i : nat) r, df !! i = Some r →
      ∃ out, rows !! i = Some out ∧
             out !! "Answer" = r !! "Answer" ∧
             out !! "id" = Some (default (PInt (Z.of_nat i)) (r !! "id")).
Proof.
  intros reply chat genai df.
  apply (batch_keeps_rows_in_order (loads_known [reply]) str_scalar genai build_response
           (@rev _) (λ _, Ret df) "sm_answers.csv").
  intros fs. symmetry. apply Permutation_rev.
Defined.

Lemma batch_rows_have_all_fields_witness :
  let reply := verdict (PInt 1) "ok" in
  let chat := scripted_chat (Ret (tool_call_reply sample_call)) (Ret no_candidates) in
  let genai := scripted_genai (text_reply reply) (Ret chat) in
  ∃ rows,
    run_parallel_system_threaded (loads_known [reply]) str_scalar genai build_response
      (λ fs, fs) (λ _, Raise (Exception "No such file")) "sm_answers.csv"
    = Saved "FINAL_threaded_report_with_graphs.csv" rows ∧
    ∀ out name, out ∈ rows → name ∈ ["Accuracy"; "Completeness"; "Empathy"] →
      record_keys name ⊆ dom out.
Proof.
  intros reply chat genai.
  apply (batch_rows_have_all_fields (loads_known [reply]) str_scalar genai build_response
           (λ fs, fs) (λ _, Raise (Exception "No such file")) "sm_answers.csv").
  - intros fs. reflexivity.
  - intros name tool desc _. exists chat. reflexivity.
Defined.

(** * Properties of the visualizer *)

Section Visualize_facts.

Context (json_loads : string → res pyval) (py_str : pyval → string)
        (pd_read_csv : string → read_result) (pd_notna : pyval → bool)
        (Graph : Type) (nx_DiGraph : Graph)
        (nx_add_edge : Graph → pyval → pyval → pyval → string → res Graph)
        (nx_has_node : Graph → pyval → bool)
        (nx_set_node_attr : Graph → pyval → string → string → res Graph)
        (nx_number_of_nodes : Graph → nat)
        (nx_node_agents : Graph → list (option string))
        (plt_draw : Graph → list string → string → string → res unit).

Local Abbreviation edges_loop := (add_edges Graph nx_add_edge nx_has_node nx_set_node_attr).
Local Abbreviation criterion :=
  (add_criterion json_loads pd_notna Graph nx_add_edge nx_has_node nx_set_node_attr).
Local Abbreviation criteria_loop :=
  (add_criteria json_loads pd_notna Graph nx_add_edge nx_has_node nx_set_node_attr).
Local Abbreviation visualize :=
  (visualize_csv_row json_loads py_str pd_read_csv pd_notna Graph nx_DiGraph nx_add_edge
     nx_has_node nx_set_node_attr nx_number_of_nodes nx_node_agents plt_draw).

(** Provided [add_edge] makes both endpoints nodes of the graph, the loop
    over a list of edge objects is a sequence of [add_edge] calls, one per
    drawable edge: the two attribute assignments are never reached. *)
Lemma add_edges_as_calls (criteria : string) (edges : list pyval) (G : Graph) :
  (∀ g s t l a g', nx_add_edge g s t l a = Ret g' →
                   nx_has_node g' s = true ∧ nx_has_node g' t = true) →
  Forall (λ edge, ∃ kvs, edge = PDict kvs) edges →
  edges_loop criteria edges G = add_all nx_add_edge criteria (drawable edges) G.
Proof.
  intros Hadd Hall. revert G. induction Hall as [|edge rest [kvs ->] _ IH]; intros G.
  - reflexivity.
  - cbn [add_edges]. unfold drawable. cbn [omap list_omap py_get mbind res_bind].
    fold (drawable rest).
    destruct (truthy (dict_get kvs "source" PNone) && truthy (dict_get kvs "target" PNone));
      [|apply IH].
    cbn [add_all]. destruct (nx_add_edge G _ _ _ criteria) as [G'|e] eqn:E; [|reflexivity].
    destruct (Hadd _ _ _ _ _ _ E) as [Hs Ht]. cbn [mbind res_bind].
    rewrite Hs. cbn [mbind res_bind]. rewrite Ht. apply IH.
Qed.

(** The turn of a criterion whose cell holds JSON text for an object. *)
Lemma criterion_object (row : gmap string pyval) (criteria s : string)
    (kvs : list (string * pyval)) (G : Graph) :
  row !! (criteria +:+ "_graph") = Some (PStr s) →
  pd_notna (PStr s) = true →
  json_loads s = Ret (PDict kvs) →
  criterion row criteria G
  = if truthy (dict_get kvs "edges" (PList []))
    then items ← py_iter (dict_get kvs "edges" (PList [])); edges_loop criteria items G
    else Ret G.
Proof. intros Hrow Hna Hj. unfold add_criterion. by rewrite Hrow, Hna, Hj. Qed.

(** X10. Provided [add_edge] makes both endpoints nodes of the graph (as
    networkx does), the turn of a criterion whose cell parses to an object
    with a list of edge objects performs exactly one [add_edge] call per
    edge whose [source] and [target] are both truthy, in order, labelled
    with its [relationship] or with relates when it has none; the other
    edges are skipped, and no node attribute is ever set. *)
Theorem criterion_draws_drawable (row : gmap string pyval) (criteria s : string)
    (kvs : list (string * pyval)) (edges : list pyval) (G : Graph) :
  (∀ g s t l a g', nx_add_edge g s t l a = Ret g' →
                   nx_has_node g' s = true ∧ nx_has_node g' t = true) →
  row !! (criteria +:+ "_graph") = Some (PStr s) →
  pd_notna (PStr s) = true →
  json_loads s = Ret (PDict kvs) →
  dict_find "edges" kvs = Some (PList edges) →
  Forall (λ edge, ∃ fields, edge = PDict fields) edges →
  criterion row criteria G = add_all nx_add_edge criteria (drawable edges) G.
Proof.
  intros Hadd Hrow Hna Hj He Hall.
  rewrite (criterion_object row criteria s kvs G Hrow Hna Hj).
  unfold dict_get. rewrite He. cbn [from_option id].
  destruct edges as [|edge rest]; [reflexivity|].
  cbn [truthy py_iter mbind res_bind].
  by apply add_edges_as_calls.
Qed.

(** X11. What the worker stores is what the visualizer draws.  Let the
    graph field of a row be the text that [run_agent_threaded] stores for a
    callback dictionary whose [graph_edges] is a list of objects, and let
    [json.loads] read that text back as the object it was printed from.
    Then the visualizer's turn for that criterion adds exactly the drawable
    edges of the list, in order. *)
Theorem stored_graph_is_drawn (agent_name : string) (kvs : list (string * pyval))
    (edges : list pyval) (final_data row : gmap string pyval) (G : Graph) :
  (∀ g s t l a g', nx_add_edge g s t l a = Ret g' →
                   nx_has_node g' s = true ∧ nx_has_node g' t = true) →
  dict_get kvs "graph_edges" PNone = PList edges →
  Forall (λ edge, ∃ fields, edge = PDict fields) edges →
  let graph_data := PDict [("nodes", dict_get kvs "graph_nodes" PNone);
                           ("edges", PList edges)] in
  json_loads (json_dumps graph_data) = Ret graph_data →
  pd_notna (PStr (json_dumps graph_data)) = true →
  row !! graph_key agent_name
  = store_result agent_name (PDict kvs) final_data !! graph_key agent_name →
  criterion row agent_name G = add_all nx_add_edge agent_name (drawable edges) G.
Proof.
  intros Hadd He Hall graph_data Hj Hna Hrow.
  unfold store_result in Hrow. rewrite lookup_insert_eq, He in Hrow.
  fold graph_data in Hrow.
  rewrite (criterion_object row agent_name _ _ G Hrow Hna Hj).
  unfold dict_get. cbn [dict_find String.eqb Ascii.eqb Bool.eqb default].
  destruct edges as [|edge rest]; [reflexivity|].
  cbn [truthy py_iter mbind res_bind].
  by apply add_edges_as_calls.
Qed.

(** A cell whose JSON value is not an object makes its criterion raise. *)
Lemma criterion_non_object (row : gmap string pyval) (criteria s : string) (v : pyval)
    (G : Graph) :
  row !! (criteria +:+ "_graph") = Some (PStr s) →
  pd_notna (PStr s) = true →
  json_loads s = Ret v →
  (∀ kvs, v ≠ PDict kvs) →
  criterion row criteria G = Raise (no_attribute v "get").
Proof.
  intros Hrow Hna Hj Hv. unfold add_criterion. rewrite Hrow, Hna, Hj.
  destruct v; try reflexivity. by destruct (Hv kvs).
Qed.

(** X12. A graph cell that holds valid JSON for anything but an object
    (such as the text of an empty array) stops the whole row: whichever of
    the three criteria it belongs to, [visualize_csv_row] raises and no
    image is written for the row. *)
Theorem non_object_graph_stops_row (csv_path : string) (row_index : Z) (output_dir : string)
    (df : list (gmap string pyval)) (row : gmap string pyval) (criteria s : string)
    (v : pyval) :
  pd_read_csv csv_path = ReadOk df →
  0 ≤ row_index →
  df !! Z.to_nat row_index = Some row →
  criteria ∈ criteria_list →
  row !! (criteria +:+ "_graph") = Some (PStr s) →
  pd_notna (PStr s) = true →
  json_loads s = Ret v →
  (∀ kvs, v ≠ PDict kvs) →
  ∃ e, visualize csv_path row_index output_dir = Raise e.
Proof.
  intros Hread Hpos Hdf Hc Hrow Hna Hj Hv.
  assert (Hloop : ∀ cs G, criteria ∈ cs → ∃ e, criteria_loop row cs G = Raise e).
  { induction cs as [|c cs IH]; intros G Hin; [by apply elem_of_nil in Hin|].
    cbn [add_criteria].
    destruct (decide (c = criteria)) as [->|Hne].
    - rewrite (criterion_non_object row criteria s v G Hrow Hna Hj Hv). eauto.
    - apply elem_of_cons in Hin as [->|Hin]; [done|].
      destruct (criterion row c G) as [G'|e]; [|eauto]. by apply IH. }
  assert (Hlen : (Z.to_nat row_index < length df)%nat).
  { apply lookup_lt_is_Some. eauto. }
  unfold visualize_csv_row. rewrite Hread.
  destruct (Z.of_nat (length df) <=? row_index) eqn:Hb; [lia|].
  unfold iloc.
  replace (0 <=? row_index) with true by lia.
  replace ((0 <=? row_index) && (row_index <? Z.of_nat (length df))) with true by lia.
  cbn [mbind res_bind]. rewrite Hdf. cbn [from_option id].
  destruct (Hloop criteria_list nx_DiGraph Hc) as [e He]. rewrite He. eauto.
Qed.

(** The turn of a silent column leaves the graph as it was. *)
Lemma criterion_silent (row : gmap string pyval) (criteria : string) (G : Graph) :
  silent_column json_loads pd_notna row criteria → criterion row criteria G = Ret G.
Proof.
  unfold add_criterion.
  intros [Hrow|cell Hrow Hna|s e Hrow Hj|s kvs Hrow Hj Hedges]; rewrite Hrow; try done.
  - by rewrite Hna.
  - destruct (pd_notna (PStr s)); [|done]. by rewrite Hj.
  - destruct (pd_notna (PStr s)); [|done]. rewrite Hj. cbn [py_get mbind res_bind].
    by rewrite Hedges.
Qed.

(** X13. When each of the three graph columns of the row is absent, holds
    a missing value, holds text that is not JSON, or holds an object whose
    [edges] is absent or empty, the visualizer neither raises nor draws:
    it reports an empty graph (an empty [DiGraph] having no node). *)
Theorem silent_columns_give_empty_graph (csv_path : string) (row_index : Z)
    (output_dir : string) (df : list (gmap string pyval)) (row : gmap string pyval) :
  nx_number_of_nodes nx_DiGraph = 0%nat →
  pd_read_csv csv_path = ReadOk df →
  0 ≤ row_index →
  df !! Z.to_nat row_index = Some row →
  (∀ criteria, criteria ∈ criteria_list → silent_column json_loads pd_notna row criteria) →
  visualize csv_path row_index output_dir = Ret VizEmptyGraph.
Proof.
  intros Hempty Hread Hpos Hdf Hsilent.
  assert (Hloop : ∀ cs G, (∀ c, c ∈ cs → silent_column json_loads pd_notna row c) →
                          criteria_loop row cs G = Ret G).
  { induction cs as [|c cs IH]; intros G Hcs; [reflexivity|].
    cbn [add_criteria]. rewrite criterion_silent by (apply Hcs; left).
    cbn [mbind res_bind]. apply IH. intros c' Hc'. apply Hcs. by right. }
  assert (Hlen : (Z.to_nat row_index < length df)%nat).
  { apply lookup_lt_is_Some. eauto. }
  unfold visualize_csv_row. rewrite Hread.
  destruct (Z.of_nat (length df) <=? row_index) eqn:Hb; [lia|].
  unfold iloc.
  replace (0 <=? row_index) with true by lia.
  replace ((0 <=? row_index) && (row_index <? Z.of_nat (length df))) with true by lia.
  cbn [mbind res_bind]. rewrite Hdf. cbn [from_option id].
  rewrite (Hloop criteria_list nx_DiGraph Hsilent). cbn [mbind res_bind].
  by rewrite Hempty.
Qed.

(** X14. Row positions at the bounds.  A position at or past the number of
    rows is reported and nothing is drawn; a negative position down to
    minus the number of rows passes the bounds check and visualizes the
    row counted from the end; a position below that raises the indexer's
    error. *)
Theorem row_index_bounds (csv_path : string) (row_index : Z) (output_dir : string)
    (df : list (gmap string pyval)) :
  pd_read_csv csv_path = ReadOk df →
  let n := Z.of_nat (length df) in
  (n ≤ row_index → visualize csv_path row_index output_dir = Ret VizOutOfBounds) ∧
  (- n ≤ row_index < 0 →
   visualize csv_path row_index output_dir
   = visualize csv_path (n + row_index) output_dir) ∧
  (row_index < - n →
   visualize csv_path row_index output_dir
   = Raise (Exception "single positional indexer is out-of-bounds")).
Proof.
  intros Hread n. unfold visualize_csv_row, iloc. rewrite Hread. cbv zeta.
  fold n. repeat split.
  - intros Hge. by replace (n <=? row_index) with true by lia.
  - intros [Hlo Hhi].
    replace (n <=? row_index) with false by lia.
    replace (n <=? n + row_index) with false by lia.
    replace (0 <=? row_index) with false by lia. cbv iota.
    replace (0 <=? n + row_index) with true by lia. cbv iota.
    replace (0 <=? n + row_index) with true by lia. reflexivity.
  - intros Hlt.
    replace (n <=? row_index) with false by lia.
    replace (0 <=? row_index) with false by lia. cbv iota.
    replace ((0 <=? n + row_index) && (n + row_index <? n)) with false by lia.
    reflexivity.
Qed.

(** X15. The visualizer never reads the [nodes] of a graph cell: two
    cells whose objects agree on [edges] give the same turn of the loop,
    whatever else the objects hold. *)
Theorem criterion_reads_edges_only (row1 row2 : gmap string pyval) (criteria s1 s2 : string)
    (kvs1 kvs2 : list (string * pyval)) (G : Graph) :
  row1 !! (criteria +:+ "_graph") = Some (PStr s1) →
  row2 !! (criteria +:+ "_graph") = Some (PStr s2) →
  pd_notna (PStr s1) = true → pd_notna (PStr s2) = true →
  json_loads s1 = Ret (PDict kvs1) → json_loads s2 = Ret (PDict kvs2) →
  dict_find "edges" kvs1 = dict_find "edges" kvs2 →
  criterion row1 criteria G = criterion row2 criteria G.
Proof.
  intros H1 H2 Hn1 Hn2 Hj1 Hj2 He.
  rewrite (criterion_object row1 criteria s1 kvs1 G H1 Hn1 Hj1).
  rewrite (criterion_object row2 criteria s2 kvs2 G H2 Hn2 Hj2).
  unfold dict_get. by rewrite He.
Qed.

End Visualize_facts.


(** ** The visualizer at scripted worlds *)

Lemma edge_list_add_has_node (G : list (pyval * pyval * pyval * string))
    (s t l : pyval) (a : string) (G' : list (pyval * pyval * pyval * string)) :
  edge_list_add G s t l a = Ret G' →
  edge_list_has_node G' s = true ∧ edge_list_has_node G' t = true.
Proof.
  intros H.
  assert (HG' : G' = G ++ [(s, t, l, a)]).
  { unfold edge_list_add in H. destruct s, t; congruence. }
  subst G'. unfold edge_list_has_node. rewrite !existsb_app. simpl.
  rewrite !String.eqb_refl. split; by rewrite ?orb_true_r.
Qed.

Lemma criterion_draws_drawable_witness :
  let graph_data := PDict [("nodes", PList []); ("edges", PList sample_edges)] in
  let row := <["Accuracy_graph" := PStr (json_dumps graph_data)]> sample_row in
  add_criterion (loads_known [graph_data]) notna_scalar
    (list (pyval * pyval * pyval * string)) edge_list_add edge_list_has_node
    (λ _ n _ _, Raise (Exception (json_dumps n))) row "Accuracy" []
  = Ret [(PStr "sun", PStr "cold", PStr "IS", "Accuracy");
         (PStr "Input Text", PStr "Accuracy", PStr "relates", "Accuracy")].
Proof.
  intros graph_data row.
  etrans.
  - apply (criterion_draws_drawable (loads_known [graph_data]) notna_scalar
             (list (pyval * pyval * pyval * string)) edge_list_add edge_list_has_node
             (λ _ n _ _, Raise (Exception (json_dumps n)))
             row "Accuracy" (json_dumps graph_data)
             [("nodes", PList []); ("edges", PList sample_edges)] sample_edges []).
    + apply edge_list_add_has_node.
    + reflexivity.
    + reflexivity.
    + reflexivity.
    + reflexivity.
    + unfold sample_edges. repeat (apply Forall_cons; split; [eauto|]). apply Forall_nil_2.
  - reflexivity.
Defined.

Lemma stored_graph_is_drawn_witness :
  let kvs := [("status", PStr "success"); ("judgment_score", PInt 0);
              ("judgment_reason", PStr "The sun is hot.");
              ("graph_nodes", PList [PDict [("id", PStr "sun"); ("type", PStr "claim")]]);
              ("graph_edges", PList sample_edges)] in
  let graph_data := PDict [("nodes", PList [PDict [("id", PStr "sun");
                                                   ("type", PStr "claim")]]);
                           ("edges", PList sample_edges)] in
  let row := store_result "Accuracy" (PDict kvs) sample_row in
  add_criterion (loads_known [graph_data]) notna_scalar
    (list (pyval * pyval * pyval * string)) edge_list_add edge_list_has_node
    (λ _ n _ _, Raise (Exception (json_dumps n))) row "Accuracy" []
  = Ret [(PStr "sun", PStr "cold", PStr "IS", "Accuracy");
         (PStr "Input Text", PStr "Accuracy", PStr "relates", "Accuracy")].
Proof.
  intros kvs graph_data row.
  etrans.
  - apply (stored_graph_is_drawn (loads_known [graph_data]) notna_scalar
             (list (pyval * pyval * pyval * string)) edge_list_add edge_list_has_node
             (λ _ n _ _, Raise (Exception (json_dumps n)))
             "Accuracy" kvs sample_edges sample_row row []).
    + apply edge_list_add_has_node.
    + reflexivity.
    + unfold sample_edges. repeat (apply Forall_cons; split; [eauto|]). apply Forall_nil_2.
    + reflexivity.
    + reflexivity.
    + reflexivity.
  - reflexivity.
Defined.

Lemma non_object_graph_stops_row_witness :
  let row := <["Completeness_graph" := PStr "[]"]> sample_row in
  ∃ e, visualize_edge_lists (loads_known [PList []]) (λ _, ReadOk [row])
         "FINAL_threaded_report_with_graphs.csv" 0 "output_graphs" = Raise e.
Proof.
  intros row.
  apply (non_object_graph_stops_row (loads_known [PList []]) str_scalar
           (λ _, ReadOk [row]) notna_scalar (list (pyval * pyval * pyval * string)) []
           edge_list_add edge_list_has_node (λ _ n _ _, Raise (Exception (json_dumps n)))
           (λ G, length (edge_list_nodes G)) (λ G, (λ _, None) <$> edge_list_nodes G)
           (λ _ _ _ _, Ret tt)
           "FINAL_threaded_report_with_graphs.csv" 0 "output_graphs"
           [row] row "Completeness" "[]" (PList [])).
  - reflexivity.
  - lia.
  - reflexivity.
  - unfold criteria_list. set_solver.
  - reflexivity.
  - reflexivity.
  - reflexivity.
  - intros kvs. discriminate.
Defined.

Lemma silent_columns_give_empty_graph_witness :
  let graph_data := PDict [("nodes", PList []); ("edges", PList [])] in
  let row := <["Empathy_graph" := PStr "Sorry, no graph."]>
               (<["Accuracy_graph" := PStr (json_dumps graph_data)]> sample_row) in
  visualize_edge_lists (loads_known [graph_data]) (λ _, ReadOk [row])
    "FINAL_threaded_report_with_graphs.csv" 0 "output_graphs"
  = Ret VizEmptyGraph.
Proof.
  intros graph_data row.
  apply (silent_columns_give_empty_graph (loads_known [graph_data]) str_scalar
           (λ _, ReadOk [row]) notna_scalar (list (pyval * pyval * pyval * string)) []
           edge_list_add edge_list_has_node (λ _ n _ _, Raise (Exception (json_dumps n)))
           (λ G, length (edge_list_nodes G)) (λ G, (λ _, None) <$> edge_list_nodes G)
           (λ _ _ _ _, Ret tt)
           "FINAL_threaded_report_with_graphs.csv" 0 "output_graphs" [row] row).
  - reflexivity.
  - reflexivity.
  - lia.
  - reflexivity.
  - intros criteria Hc. unfold criteria_list in Hc. set_unfold in Hc.
    destruct Hc as [->|[->|[->|[]]]].
    + eapply column_no_edges; reflexivity.
    + apply column_absent. reflexivity.
    + eapply column_not_json; reflexivity.
Defined.

Lemma row_index_bounds_witness :
  let df := [sample_row; <["Answer" := PStr "Rest and fluids help."]> ∅] in
  visualize_edge_lists (loads_known []) (λ _, ReadOk df)
    "FINAL_threaded_report_with_graphs.csv" (-1) "output_graphs"
  = visualize_edge_lists (loads_known []) (λ _, ReadOk df)
      "FINAL_threaded_report_with_graphs.csv" 1 "output_graphs".
Proof.
  intros df.
  apply (proj1 (proj2 (row_index_bounds (loads_known []) str_scalar
                         (λ _, ReadOk df) notna_scalar
                         (list (pyval * pyval * pyval * string)) []
                         edge_list_add edge_list_has_node
                         (λ _ n _ _, Raise (Exception (json_dumps n)))
                         (λ G, length (edge_list_nodes G))
                         (λ G, (λ _, None) <$> edge_list_nodes G)
                         (λ _ _ _ _, Ret tt)
                         "FINAL_threaded_report_with_graphs.csv" (-1) "output_graphs"
                         df eq_refl))).
  simpl. lia.
Defined.

Lemma criterion_reads_edges_only_witness :
  let with_nodes := PDict [("nodes", PList [PDict [("id", PStr "sun")]]);
                           ("edges", PList sample_edges)] in
  let without_nodes := PDict [("edges", PList sample_edges)] in
  let loads := loads_known [with_nodes; without_nodes] in
  add_criterion loads notna_scalar (list (pyval * pyval * pyval * string))
    edge_list_add edge_list_has_node (λ _ n _ _, Raise (Exception (json_dumps n)))
    (<["Empathy_graph" := PStr (json_dumps with_nodes)]> sample_row) "Empathy" []
  = add_criterion loads notna_scalar (list (pyval * pyval * pyval * string))
      edge_list_add edge_list_has_node (λ _ n _ _, Raise (Exception (json_dumps n)))
      (<["Empathy_graph" := PStr (json_dumps without_nodes)]> sample_row) "Empathy" [].
Proof.
  intros with_nodes without_nodes loads.
  apply (criterion_reads_edges_only loads notna_scalar
           (list (pyval * pyval * pyval * string)) edge_list_add edge_list_has_node
           (λ _ n _ _, Raise (Exception (json_dumps n)))
           _ _ "Empathy" (json_dumps with_nodes) (json_dumps without_nodes)
           [("nodes", PList [PDict [("id", PStr "sun")]]); ("edges", PList sample_edges)]
           [("edges", PList sample_edges)] []);
    reflexivity.
Defined.

(** * Properties of the pipeline driver *)

Section Pipeline_facts.

Context (FS : Type) (os_path_exists : FS → string → bool)
        (subprocess_run : gmap string string → FS → string → FS * res Z).

Local Abbreviation script := (run_script FS os_path_exists subprocess_run).
Local Abbreviation step := (pipeline_step FS os_path_exists subprocess_run).
Local Abbreviation key_step := (check_api_key FS).
Local Abbreviation pipeline := (main FS os_path_exists subprocess_run).

(** The two ways [run_script] goes: the script is missing and nothing is
    run, or it is run and its outcome recorded. *)
Lemma run_script_cases (name : string) (σ σ' : pipeline_state FS) (r : res bool) :
  script name σ = (σ', r) →
  (os_path_exists (files σ) name = false ∧ σ' = σ ∧ r = Ret false) ∨
  (∃ fs out,
      os_path_exists (files σ) name = true ∧
      subprocess_run (environ σ) (files σ) name = (fs, out) ∧
      σ' = {| environ := environ σ; files := fs;
              launched := launched σ ++ [(name, out)] |} ∧
      r = match out with
          | Raise e => Raise e
          | Ret returncode => Ret (returncode =? 0)
          end).
Proof.
  unfold run_script.
  destruct (os_path_exists (files σ) name) eqn:Hex; simpl.
  - destruct (subprocess_run (environ σ) (files σ) name) as [fs out] eqn:Hrun.
    intros H. right. exists fs, out. split; [done|]. split; [done|].
    destruct out as [code|e]; [|by injection H as <- <-].
    destruct (code =? 0) eqn:Hc; injection H as <- <-; by rewrite ?Hc.
  - intros [= <- <-]. by left.
Qed.

Lemma run_script_environ (name : string) (σ σ' : pipeline_state FS) (r : res bool) :
  script name σ = (σ', r) → environ σ' = environ σ.
Proof.
  intros [(_ & -> & _)|(fs & out & _ & _ & -> & _)]%run_script_cases; reflexivity.
Qed.

Lemma pipeline_step_orderly (name message : string)
    (rest : pipeline_state FS → pipeline_state FS * res pipeline_outcome)
    (names : list string) :
  (∀ σ σ' r, rest σ = (σ', r) →
             environ σ' = environ σ ∧
             ∃ log, launched σ' = launched σ ++ log ∧ orderly names log r) →
  ∀ σ σ' r, step name message rest σ = (σ', r) →
            environ σ' = environ σ ∧
            ∃ log, launched σ' = launched σ ++ log ∧ orderly (name :: names) log r.
Proof.
  intros Hrest σ σ' r. unfold pipeline_step.
  destruct (script name σ) as [σ1 r1] eqn:Hs.
  pose proof (run_script_environ _ _ _ _ Hs) as Henv.
  apply run_script_cases in Hs
    as [(_ & -> & ->)|(fs & out & _ & _ & Hσ1 & ->)].
  - intros [= <- <-]. split; [done|]. exists []. rewrite app_nil_r. split; [done|].
    unfold orderly. split; [apply prefix_nil|]. split; [by intros i entry [=]|].
    split; [done|]. unfold all_succeeded. by intros [=].
  - destruct out as [code|e].
    + destruct (code =? 0) eqn:Hc.
      * intros Hk. destruct (Hrest _ _ _ Hk) as (Henv' & log & Hlog & Hpre & Hmid & Hend).
        split; [congruence|].
        exists ((name, Ret code) :: log). split.
        { rewrite Hlog, Hσ1. simpl. by rewrite <- (assoc_L (++)). }
        assert (code = 0) as -> by lia.
        split; [simpl; by apply prefix_cons|]. split.
        { intros [|i] entry Hi Hlt; simpl in *; [by injection Hi as <-|].
          apply (Hmid i); [done|lia]. }
        rewrite Hend. unfold all_succeeded. simpl. split; [by intros ->|by intros [=]].
      * intros [= <- <-]. split; [done|]. exists [(name, Ret code)].
        split; [by rewrite Hσ1|]. split; [simpl; apply prefix_cons, prefix_nil|].
        split; [intros [|i] entry Hi Hlt; simpl in *; [lia|done]|].
        split; [done|]. unfold all_succeeded. simpl. intros [= ->]. done.
    + intros [= <- <-]. split; [done|]. exists [(name, Raise e)].
      split; [by rewrite Hσ1|]. split; [simpl; apply prefix_cons, prefix_nil|].
      split; [intros [|i] entry Hi Hlt; simpl in *; [lia|done]|].
      split; [done|]. unfold all_succeeded. simpl. by intros [=].
Qed.

(** The three steps of the driver, after the key check. *)
Lemma pipeline_steps_orderly (σ σ' : pipeline_state FS) (r : res pipeline_outcome) :
  step "generate_data.py" "Aborted: Data generation error."
    (step "working_functions.py" "Aborted: Error during LLM analysis."
       (step "visualize_graphs.py" "Aborted: Error generating graphs."
          (λ σ, (σ, Ret Success)))) σ = (σ', r) →
  environ σ' = environ σ ∧
  ∃ log, launched σ' = launched σ ++ log ∧ orderly pipeline_steps log r.
Proof.
  apply pipeline_step_orderly, pipeline_step_orderly, pipeline_step_orderly.
  intros s s' r' [= <- <-]. split; [done|]. exists []. rewrite app_nil_r.
  split; [done|]. unfold orderly. split; [done|]. split; [by intros i entry [=]|done].
Qed.



Section With_input.

Context (input : res string).

Lemma check_api_key_cases (σ σ' : pipeline_state FS) (r : res unit) :
  key_step input σ = (σ', r) →
  files σ' = files σ ∧ launched σ' = launched σ ∧
  (environ σ' = environ σ ∨
   ∃ line c key, input = Ret line ∧ py_strip line = String c key ∧
                 (∀ c' key', environ σ !! "GOOGLE_API_KEY" ≠ Some (String c' key')) ∧
                 environ σ' = <["GOOGLE_API_KEY" := py_strip line]> (environ σ)).
Proof.
  unfold check_api_key.
  assert (Hask : (∀ c' key', environ σ !! "GOOGLE_API_KEY" ≠ Some (String c' key')) →
                 match input with
                 | Ret line =>
                     match py_strip line with
                     | "" => (σ, Ret tt)
                     | String _ _ =>
                         ({| environ := <["GOOGLE_API_KEY" := py_strip line]> (environ σ);
                             files := files σ; launched := launched σ |}, Ret tt)
                     end
                 | Raise e => (σ, Raise e)
                 end = (σ', r) →
                 files σ' = files σ ∧ launched σ' = launched σ ∧
                 (environ σ' = environ σ ∨
                  ∃ line c key, input = Ret line ∧ py_strip line = String c key ∧
                    (∀ c' key', environ σ !! "GOOGLE_API_KEY" ≠ Some (String c' key')) ∧
                    environ σ' = <["GOOGLE_API_KEY" := py_strip line]> (environ σ))).
  { intros Hno. destruct input as [line|e]; [|intros [= <- <-]; auto].
    destruct (py_strip line) as [|c key] eqn:Hstrip; intros [= <- <-]; [auto|].
    simpl. repeat split. right. exists line, c, key. by rewrite Hstrip. }
  destruct (environ σ !! "GOOGLE_API_KEY") as [[|c key]|] eqn:Hkey.
  - by apply Hask.
  - intros [= <- <-]. auto.
  - by apply Hask.
Qed.


(** X17. The driver changes the environment in at most the variable
    [GOOGLE_API_KEY], and only when that variable was unset or empty and
    the line read from the user is not blank; the value stored is that
    line without its leading and trailing whitespace. *)
Theorem pipeline_environment (σ σ' : pipeline_state FS) (r : res pipeline_outcome) :
  pipeline input σ = (σ', r) →
  (∀ name : string, name ≠ "GOOGLE_API_KEY" → environ σ' !! name = environ σ !! name) ∧
  (environ σ' !! "GOOGLE_API_KEY" = environ σ !! "GOOGLE_API_KEY" ∨
   ∃ line c key,
     input = Ret line ∧ py_strip line = String c key ∧
     (∀ c' key', environ σ !! "GOOGLE_API_KEY" ≠ Some (String c' key')) ∧
     environ σ' !! "GOOGLE_API_KEY" = Some (py_strip line)).
Proof.
  unfold main. destruct (key_step input σ) as [σ0 [[]|e]] eqn:Hkey;
    apply check_api_key_cases in Hkey as (_ & _ & Henv0).
  - intros Hrun.
    assert (Henv : environ σ' = environ σ0).
    { by destruct (pipeline_steps_orderly _ _ _ Hrun) as [? _]. }
    rewrite Henv.
    destruct Henv0 as [->|(line & c & key & Hin & Hs & Hno & ->)].
    + split; [done|by left].
    + split.
      * intros name Hne. by rewrite lookup_insert_ne.
      * right. exists line, c, key. by rewrite lookup_insert_eq.
  - intros [= <- <-].
    destruct Henv0 as [->|(line & c & key & Hin & Hs & Hno & ->)].
    + split; [done|by left].
    + split.
      * intros name Hne. by rewrite lookup_insert_ne.
      * right. exists line, c, key. by rewrite lookup_insert_eq.
Qed.


End With_input.

End Pipeline_facts.


Section Pipeline_child.

Context (FS : Type) (os_path_exists : FS → string → bool)
        (subprocess_run : gmap string string → FS → string → FS * res Z)
        (input : res string)
        (json_loads : string → res pyval) (py_str : pyval → string)
        (genai_GenerativeModel :
           string → list tool_function → option string → GenerativeModel)
        (protos_FunctionResponse : string → list (string * pyval) → res chat_message)
        (as_completed : list (res (gmap string pyval)) → list (res (gmap string pyval)))
        (pd_read_csv : FS → string → res (list (gmap string pyval))).

Local Abbreviation pipeline := (main FS os_path_exists subprocess_run input).
Local Abbreviation module_status env fs :=
  (exit_status
     (working_functions_main json_loads py_str genai_GenerativeModel
        protos_FunctionResponse as_completed (pd_read_csv fs) (os_path_exists fs)
        (λ name : string, env !! name))).

(** X19. Let the child process of the analysis step be
    [working_functions.py] as embedded above, exiting with the status of
    its script, and let data generation succeed.  If no key is set and
    the user enters a blank line, the analysis exits with status 1 and the
    driver aborts with the analysis message, never running the
    visualizer.  If the key is set but [sm_answers.csv] is missing, the
    analysis prints its message and exits with status 0, so the driver
    does not abort there and goes on to the visualizer step: the
    visualizer is run when its script exists, and the driver ends as that
    run decides; when the script is missing the driver aborts with the
    visualization message. *)
Theorem analysis_step_in_pipeline (σ : pipeline_state FS) (fs1 : FS) :
  (∀ env fs, ∃ fs',
      subprocess_run env fs "working_functions.py" = (fs', Ret (module_status env fs))) →
  os_path_exists (files σ) "generate_data.py" = true →
  subprocess_run (environ σ) (files σ) "generate_data.py" = (fs1, Ret 0) →
  os_path_exists fs1 "working_functions.py" = true →
  ((environ σ !! "GOOGLE_API_KEY" = None ∨ environ σ !! "GOOGLE_API_KEY" = Some "") →
   (∃ line, input = Ret line ∧ py_strip line = "") →
   ∃ σ', pipeline σ = (σ', Ret (Aborted "Aborted: Error during LLM analysis.")) ∧
         launched σ'
         = launched σ ++ [("generate_data.py", Ret 0); ("working_functions.py", Ret 1)]) ∧
  ((∃ c key, environ σ !! "GOOGLE_API_KEY" = Some (String c key)) →
   os_path_exists fs1 "sm_answers.csv" = false →
   ∃ fs2,
     subprocess_run (environ σ) fs1 "working_functions.py" = (fs2, Ret 0) ∧
     (os_path_exists fs2 "visualize_graphs.py" = false →
      ∃ σ', pipeline σ = (σ', Ret (Aborted "Aborted: Error generating graphs.")) ∧
            launched σ'
            = launched σ ++ [("generate_data.py", Ret 0); ("working_functions.py", Ret 0)]) ∧
     (os_path_exists fs2 "visualize_graphs.py" = true →
      ∃ σ' fs3 out,
        subprocess_run (environ σ) fs2 "visualize_graphs.py" = (fs3, out) ∧
        pipeline σ
        = (σ', match out with
               | Raise e => Raise e
               | Ret returncode =>
                   if returncode =? 0 then Ret Success
                   else Ret (Aborted "Aborted: Error generating graphs.")
               end) ∧
        launched σ'
        = launched σ ++ [("generate_data.py", Ret 0); ("working_functions.py", Ret 0);
                         ("visualize_graphs.py", out)])).
Proof.
  intros Hchild Hgen Hrun Hwf. split.
  - intros Hnokey (line & Hin & Hblank).
    destruct (Hchild (environ σ) fs1) as [fs2 Hc].
    assert (Hstatus : module_status (environ σ) fs1 = 1).
    { unfold working_functions_main. by destruct Hnokey as [->| ->]. }
    rewrite Hstatus in Hc.
    assert (Hk : check_api_key FS input σ = (σ, Ret tt)).
    { unfold check_api_key. rewrite Hin, Hblank. by destruct Hnokey as [->| ->]. }
    eexists. unfold main, pipeline_step, run_script. rewrite Hk, Hgen. simpl.
    rewrite Hrun. simpl. rewrite Hwf. simpl. rewrite Hc. simpl.
    split; [reflexivity|]. simpl. by rewrite <- (assoc_L (++)).
  - intros (c & key & Hkey) Hcsv.
    destruct (Hchild (environ σ) fs1) as [fs2 Hc].
    assert (Hstatus : module_status (environ σ) fs1 = 0).
    { unfold working_functions_main. by rewrite Hkey, Hcsv. }
    rewrite Hstatus in Hc.
    assert (Hk : check_api_key FS input σ = (σ, Ret tt)).
    { unfold check_api_key. by rewrite Hkey. }
    exists fs2. split; [exact Hc|].
    unfold main, pipeline_step, run_script.
    rewrite Hk, Hgen. simpl. rewrite Hrun. simpl. rewrite Hwf. simpl. rewrite Hc. simpl.
    split.
    + intros Hviz. rewrite Hviz. simpl. eexists. split; [reflexivity|].
      simpl. by rewrite <- !(assoc_L (++)).
    + intros Hviz. rewrite Hviz. simpl.
      destruct (subprocess_run (environ σ) fs2 "visualize_graphs.py") as [fs3 out].
      destruct out as [code|e]; [destruct (code =? 0) eqn:Hcode|];
        eexists _, fs3, _; (split; [reflexivity|]); simpl; rewrite ?Hcode;
        (split; [reflexivity|]); simpl; by rewrite <- !(assoc_L (++)).
Qed.

End Pipeline_child.

(** ** The driver at scripted worlds *)


Lemma pipeline_environment_witness :
  let σ := {| environ := {["PATH" := "/usr/bin"]}; files := all_scripts;
              launched := [] |} in
  let out := main (gset string) (λ fs path, bool_decide (path ∈ fs))
               (scripted_run ∅) (Ret "  AIza-key  ") σ in
  (∀ name : string, name ≠ "GOOGLE_API_KEY" →
                    environ out.1 !! name = environ σ !! name) ∧
  (environ out.1 !! "GOOGLE_API_KEY" = environ σ !! "GOOGLE_API_KEY" ∨
   ∃ line c key,
     Ret "  AIza-key  " = Ret line ∧ py_strip line = String c key ∧
     (∀ c' key', environ σ !! "GOOGLE_API_KEY" ≠ Some (String c' key')) ∧
     environ out.1 !! "GOOGLE_API_KEY" = Some (py_strip line)).
Proof.
  intros σ out.
  apply (pipeline_environment (gset string) (λ fs path, bool_decide (path ∈ fs))
           (scripted_run ∅) (Ret "  AIza-key  ") σ out.1 out.2).
  apply surjective_pairing.
Defined.


Lemma analysis_step_in_pipeline_witness :
  let genai := scripted_genai (Raise (Exception "unused")) (Raise (Exception "unused")) in
  let blank := {| environ := ∅; files := all_scripts; launched := [] |} in
  let keyed := {| environ := {["GOOGLE_API_KEY" := "AIza-key"]}; files := all_scripts;
                  launched := [] |} in
  (∃ σ', main (gset string) (λ fs path, bool_decide (path ∈ fs)) (module_run genai)
           (Ret "   ") blank
         = (σ', Ret (Aborted "Aborted: Error during LLM analysis.")) ∧
         launched σ'
         = launched blank
           ++ [("generate_data.py", Ret 0); ("working_functions.py", Ret 1)]) ∧
  (∃ σ' fs3 out,
     module_run genai (environ keyed) all_scripts "visualize_graphs.py" = (fs3, out) ∧
     main (gset string) (λ fs path, bool_decide (path ∈ fs)) (module_run genai)
       (Ret "   ") keyed
     = (σ', match out with
            | Raise e => Raise e
            | Ret returncode =>
                if returncode =? 0 then Ret Success
                else Ret (Aborted "Aborted: Error generating graphs.")
            end) ∧
     launched σ'
     = launched keyed ++ [("generate_data.py", Ret 0); ("working_functions.py", Ret 0);
                          ("visualize_graphs.py", out)]).
Proof.
  intros genai blank keyed. split.
  - apply (proj1 (analysis_step_in_pipeline (gset string)
                    (λ fs path, bool_decide (path ∈ fs)) (module_run genai) (Ret "   ")
                    (loads_known []) str_scalar genai build_response (λ fs, fs)
                    (λ _ _, Raise (Exception "No such file")) blank all_scripts
                    (λ env fs, ex_intro _ fs eq_refl) eq_refl eq_refl eq_refl)).
    + left. reflexivity.
    + exists "   ". split; reflexivity.
  - destruct (proj2 (analysis_step_in_pipeline (gset string)
                       (λ fs path, bool_decide (path ∈ fs)) (module_run genai)
                       (Ret "   ") (loads_known []) str_scalar genai build_response
                       (λ fs, fs) (λ _ _, Raise (Exception "No such file")) keyed
                       all_scripts (λ env fs, ex_intro _ fs eq_refl)
                       eq_refl eq_refl eq_refl)
                (ex_intro _ "A"%char (ex_intro _ "Iza-key" eq_refl)) eq_refl)
      as (fs2 & Hrun & _ & Hgo).
    injection Hrun as <-.
    exact (Hgo eq_refl).
Defined.
